(** * Authentication and authorisation of the Student Portal API (src/main.py)

    Shallow embedding of the auth helpers ([create_token], [get_current_user],
    [require_role]), the auth endpoints ([register], [login]) and two of the
    role/ownership-gated teacher endpoints ([create_course],
    [create_assignment]).

    The MongoDB collections are association lists searched front to back, as
    [find_one] does; [insert_one] appends.  The third-party libraries the code
    calls (PyJWT, bson's ObjectId, passlib's bcrypt) are section variables,
    constrained by the part of their documented contract the code relies on.
    Python exceptions are the [Err] constructors of a small error monad. *)

From Stdlib Require Import String Ascii List ZArith Bool Lia.
Import ListNotations.
Open Scope string_scope.
Open Scope Z_scope.

(** ** Error monad: an HTTP response raised by the handler, or a
    non-HTTP exception escaping it (FastAPI then answers 500). *)

Inductive Err :=
| HTTPException (status_code : Z) (detail : string)
| Uncaught (exc : string).

Inductive Result (A : Type) :=
| Ok (a : A)
| Error (e : Err).
Arguments Ok {A} a.
Arguments Error {A} e.

Definition bind {A B} (m : Result A) (k : A -> Result B) : Result B :=
  match m with
  | Ok a => k a
  | Error e => Error e
  end.

Notation "'let*' x ':=' m 'in' k" := (bind m (fun x => k))
  (at level 200, x name, m at level 100, k at level 200).

(** ** Python string helpers *)

(** [str.split(" ")] with an explicit separator: every single space cuts,
    empty pieces are kept. *)
Fixpoint split_on (c : ascii) (s : string) : list string :=
  match s with
  | EmptyString => [EmptyString]
  | String x rest =>
      if Ascii.eqb x c then EmptyString :: split_on c rest
      else match split_on c rest with
           | [] => [String x EmptyString]
           | w :: ws => String x w :: ws
           end
  end.

(** [str.lower()] on ASCII letters. *)
Definition lower_char (c : ascii) : ascii :=
  let n := nat_of_ascii c in
  if (Nat.leb 65 n && Nat.leb n 90)%bool then ascii_of_nat (n + 32) else c.

Fixpoint lower (s : string) : string :=
  match s with
  | EmptyString => EmptyString
  | String c r => String (lower_char c) (lower r)
  end.

(** [True] when [c] never occurs in [s]. *)
Fixpoint no_char (c : ascii) (s : string) : bool :=
  match s with
  | EmptyString => true
  | String x r => negb (Ascii.eqb x c) && no_char c r
  end.

(** ** Data model (schemas.py [User], [Course], [Assignment]) *)

Inductive Role := student | teacher | admin.

Definition role_str (r : Role) : string :=
  match r with
  | student => "student"
  | teacher => "teacher"
  | admin => "admin"
  end.

(** The JWT claims set built by [create_token]: ["sub"], ["role"], ["exp"]
    (seconds since the epoch, as PyJWT serialises a datetime). *)
Record Payload := mkPayload {
  sub : string;
  prole : string;
  exp : Z
}.

(** Outcome of [jwt.decode]: the claims, [ExpiredSignatureError], or any
    other [InvalidTokenError] (bad structure, bad signature, ...). *)
Inductive DecodeResult :=
| DecOk (p : Payload)
| DecExpired
| DecInvalid.

(** ** The libraries the code calls *)

(** bson's [ObjectId]: [str(o)] and the constructor [ObjectId(s)], which
    raises on a malformed string ([None]).  Formatting then parsing an id
    gives the id back, and the string form (24 hex digits) is never empty. *)
Class OidLib := {
  ObjectId : Type;
  oid_eqb : ObjectId -> ObjectId -> bool;
  str_oid : ObjectId -> string;
  parse_oid : string -> option ObjectId
}.

Class OidLaws `{OidLib} : Prop := {
  oid_eqb_spec : forall a b, oid_eqb a b = true <-> a = b;
  parse_str_oid : forall o, parse_oid (str_oid o) = Some o;
  str_oid_nonempty : forall o, str_oid o <> EmptyString
}.

(** PyJWT with HS256: [jwt.encode(payload, key)] and
    [jwt.decode(token, key, algorithms=["HS256"])] at time [now].
    [jwt_signature_ok token key] is the first stage of [jwt.decode]: the
    token splits into header, claims and signature segments that parse, its
    algorithm is allowed, and its HS256 signature under [key] matches.  A
    token failing it raises [DecodeError] or [InvalidSignatureError], both
    [InvalidTokenError]s, before any claim (the expiry included) is read.
    A token encoded with [key] decodes under [key] to its claims, or raises
    [ExpiredSignatureError] once [exp <= now] (PyJWT's test, no leeway).
    Encoded tokens are base64url segments joined by dots: no space. *)
Class JwtLib := {
  jwt_encode : Payload -> string -> string;
  jwt_decode : string -> string -> Z -> DecodeResult;
  jwt_signature_ok : string -> string -> bool
}.

Class JwtLaws `{JwtLib} : Prop := {
  jwt_decode_encode : forall p k now,
    jwt_decode (jwt_encode p k) k now =
      if exp p <=? now then DecExpired else DecOk p;
  jwt_encode_no_space : forall p k, no_char " " (jwt_encode p k) = true;
  jwt_decode_bad_signature : forall t k now,
    jwt_signature_ok t k = false -> jwt_decode t k now = DecInvalid
}.

(** passlib's [bcrypt]: [bcrypt_digest salt secret] is the hash string
    [bcrypt.hash(secret)] returns with a random [salt] for a secret it
    accepts, [bcrypt_check] the checksum comparison of [bcrypt.verify].
    [bcrypt_tail_ok] is passlib's validation of what follows the ident
    prefix (cost, salt and checksum alphabet). *)
Class BcryptLib := {
  bcrypt_digest : string -> string -> string;
  bcrypt_check : string -> string -> bool;
  bcrypt_tail_ok : string -> bool
}.

(** [SECRET_KEY] and [JWT_EXP_MIN], read once from the environment. *)
Class Settings := {
  SECRET_KEY : string;
  JWT_EXP_MIN : Z
}.

Section Portal.
Context `{OL : OidLib} `{JL : JwtLib} `{BL : BcryptLib} `{ST : Settings}.

Record User := mkUser {
  _id : ObjectId;
  name : string;
  email : string;
  password_hash : option string;
  role : Role;
  approved : bool;
  created_at : Z;
  updated_at : Z
}.

Record Course := mkCourse {
  course_oid : ObjectId;
  title : string;
  description : option string;
  subject : option string;
  teacher_id : option string;
  course_created_at : Z
}.

Record Assignment := mkAssignment {
  assignment_oid : ObjectId;
  course_id : string;
  assignment_title : string;
  assignment_description : option string;
  due_date : option Z;
  assignment_created_at : Z
}.

(** The database: the collections [db["user"]], [db["course"]],
    [db["assignment"]]. *)
Record Db := mkDb {
  user : list User;
  course : list Course;
  assignment : list Assignment
}.

(** [db["user"].find_one({"_id": i})] and [find_one({"email": e})]. *)
Definition find_user_by_id (us : list User) (i : ObjectId) : option User :=
  find (fun u => oid_eqb (_id u) i) us.

Definition find_user_by_email (us : list User) (e : string) : option User :=
  find (fun u => String.eqb (email u) e) us.

Definition find_course_by_id (cs : list Course) (i : ObjectId) : option Course :=
  find (fun c => oid_eqb (course_oid c) i) cs.

(** A handler body over a live database; [db is None] answers 500. *)
Definition with_db {A} (db : option Db) (k : Db -> Result A * Db)
  : Result A * option Db :=
  match db with
  | None => (Error (HTTPException 500 "Database unavailable"), None)
  | Some d => let (r, d') := k d in (r, Some d')
  end.

(** [oid(id_str)]: raises [HTTPException(400)] on a malformed id. *)
Definition oid (id_str : string) : Result ObjectId :=
  match parse_oid id_str with
  | Some o => Ok o
  | None => Error (HTTPException 400 "Invalid id format")
  end.

(** *** create_token (main.py 139-145) *)
Definition create_token (u : User) (now : Z) : string :=
  jwt_encode
    {| sub := str_oid (_id u);
       prole := role_str (role u);
       exp := now + JWT_EXP_MIN * 60 |}
    SECRET_KEY.

Record TokenResponse := mkTokenResponse {
  access_token : string;
  token_type : string
}.

Definition token_response (t : string) : TokenResponse :=
  {| access_token := t; token_type := "bearer" |}.

(** *** get_current_user (main.py 148-168)

    The body of the [try] block: [inl] the user, or [inr] the exception it
    raises ([true] for [jwt.ExpiredSignatureError], [false] for any other,
    including the [HTTPException] raised by [oid], which the bare
    [except Exception] also catches). *)
Definition get_current_user_try (db : option Db) (authorization : string)
    (now : Z) : User + bool :=
  match split_on " " authorization with
  | [scheme; token] =>
      if negb (String.eqb (lower scheme) "bearer") then inr false
      else match jwt_decode token SECRET_KEY now with
      | DecExpired => inr true
      | DecInvalid => inr false
      | DecOk payload =>
          let user_id := sub payload in
          if String.eqb user_id "" then inr false
          else match db with
          | None => inr false
          | Some d =>
              match oid user_id with
              | Error _ => inr false
              | Ok i =>
                  match find_user_by_id (user d) i with
                  | None => inr false
                  | Some u => inl u
                  end
              end
          end
      end
  | _ => inr false (* unpacking into [scheme, token] raises ValueError *)
  end.

Definition get_current_user (db : option Db) (authorization : option string)
    (now : Z) : Result User :=
  match authorization with
  | None | Some EmptyString =>
      Error (HTTPException 401 "Missing Authorization header")
  | Some h =>
      match get_current_user_try db h now with
      | inl u => Ok u
      | inr true => Error (HTTPException 401 "Token expired")
      | inr false => Error (HTTPException 401 "Invalid token")
      end
  end.

(** *** require_role (main.py 171-173) *)
Definition require_role (u : User) (roles : list string) : Result unit :=
  if existsb (String.eqb (role_str (role u))) roles then Ok tt
  else Error (HTTPException 403 "Forbidden").

(** *** passlib's checks on the password (passlib 1.7.4)

    A Python [str] is represented by its UTF-8 encoding: [String.length]
    counts its bytes, [utf8_length] its characters. *)
Definition MAX_PASSWORD_SIZE : nat := 4096.

Definition NUL : ascii := "000"%char.

(** A byte that starts a UTF-8 character (any byte but [10xxxxxx]). *)
Definition utf8_lead (c : ascii) : bool :=
  negb (Nat.eqb (Nat.div (nat_of_ascii c) 64) 2).

Fixpoint utf8_length (s : string) : nat :=
  match s with
  | EmptyString => O
  | String c r => if utf8_lead c then S (utf8_length r) else utf8_length r
  end.

Definition password_size_error : Err :=
  Uncaught "PasswordSizeError: password exceeds maximum allowed size".

Definition null_password_error : Err :=
  Uncaught "PasswordValueError: bcrypt does not allow NULL bytes in password".

(** [passlib.utils.handlers.validate_secret]: [PasswordSizeError] when the
    secret is longer than [MAX_PASSWORD_SIZE]. *)
Definition validate_secret (len : nat) : Result unit :=
  if Nat.ltb MAX_PASSWORD_SIZE len then Error password_size_error else Ok tt.

(** bcrypt's [_norm_digest_args], the start of [_calc_checksum]: the secret
    is encoded to UTF-8, [validate_secret] runs on the bytes, and a NUL byte
    raises [NullPasswordError]. *)
Definition bcrypt_norm_secret (secret : string) : Result unit :=
  let* _ := validate_secret (String.length secret) in
  if no_char NUL secret then Ok tt else Error null_password_error.

(** *** passlib's [bcrypt.hash(secret)]: [validate_secret(secret)], then
    the checksum, whose [_norm_digest_args] may raise. *)
Definition bcrypt_hash (salt secret : string) : Result string :=
  let* _ := validate_secret (utf8_length secret) in
  let* _ := bcrypt_norm_secret secret in
  Ok (bcrypt_digest salt secret).

(** The secrets [bcrypt.hash] and [bcrypt.verify] accept: at most 4096
    UTF-8 bytes and no NUL. *)
Definition bcrypt_secret_ok (secret : string) : bool :=
  Nat.leb (String.length secret) MAX_PASSWORD_SIZE && no_char NUL secret.

(** *** passlib's [bcrypt.verify(secret, hash)]: [validate_secret(secret)];
    then [from_string] raises [ValueError] ("not a valid bcrypt hash")
    unless the hash starts with a bcrypt ident and its tail parses; then
    [_calc_checksum] normalises the secret (which may raise) and the
    checksum is compared. *)
Definition bcrypt_idents : list string := ["$2$"; "$2a$"; "$2b$"; "$2x$"; "$2y$"].

Definition bcrypt_verify (secret hash : string) : Result bool :=
  let* _ := validate_secret (utf8_length secret) in
  if existsb (fun ident => String.prefix ident hash) bcrypt_idents
     && bcrypt_tail_ok hash
  then let* _ := bcrypt_norm_secret secret in Ok (bcrypt_check secret hash)
  else Error (Uncaught "ValueError: not a valid bcrypt hash").

(** *** register (main.py 236-258)

    [new_id] is the [_id] that [insert_one] generates, [salt] the salt
    [bcrypt.hash] draws, [now] the value of [datetime.now]. *)
Record RegisterRequest := mkRegisterRequest {
  rq_name : string;
  rq_email : string;
  rq_password : string;
  rq_role : Role
}.

Definition register (db : option Db) (payload : RegisterRequest)
    (new_id : ObjectId) (salt : string) (now : Z)
    : Result TokenResponse * option Db :=
  with_db db (fun d =>
    if String.eqb (role_str (rq_role payload)) "admin" then
      (Error (HTTPException 400 "Cannot self-register as admin"), d)
    else match find_user_by_email (user d) (rq_email payload) with
    | Some _ => (Error (HTTPException 400 "Email already registered"), d)
    | None =>
        let approved := String.eqb (role_str (rq_role payload)) "student" in
        (* building [user_doc] calls [bcrypt.hash], whose exception escapes *)
        match bcrypt_hash salt (rq_password payload) with
        | Error e => (Error e, d)
        | Ok h =>
            let user_doc :=
              {| _id := new_id;
                 name := rq_name payload;
                 email := rq_email payload;
                 password_hash := Some h;
                 role := rq_role payload;
                 approved := approved;
                 created_at := now;
                 updated_at := now |} in
            let d' := {| user := user d ++ [user_doc];
                         course := course d;
                         assignment := assignment d |} in
            (Ok (token_response (create_token user_doc now)), d')
        end
    end).

(** *** login (main.py 261-271) *)
Record LoginRequest := mkLoginRequest {
  lq_email : string;
  lq_password : string
}.

(** [user.get("password_hash", "")]. *)
Definition stored_hash (u : User) : string :=
  match password_hash u with Some h => h | None => "" end.

Definition login_body (d : Db) (payload : LoginRequest) (now : Z)
    : Result TokenResponse :=
  match find_user_by_email (user d) (lq_email payload) with
  | None => Error (HTTPException 401 "Invalid credentials")
  | Some u =>
      let* ok := bcrypt_verify (lq_password payload) (stored_hash u) in
      if negb ok then Error (HTTPException 401 "Invalid credentials")
      else if negb (String.eqb (role_str (role u)) "admin") && negb (approved u)
      then Error (HTTPException 403 "Account pending approval")
      else Ok (token_response (create_token u now))
  end.

Definition login (db : option Db) (payload : LoginRequest) (now : Z)
    : Result TokenResponse * option Db :=
  with_db db (fun d => (login_body d payload now, d)).

(** A protected endpoint: FastAPI resolves [Depends(get_current_user)]
    before running the handler body. *)
Definition endpoint {A} (db : option Db) (authorization : option string)
    (now : Z) (handler : User -> Result A * option Db) : Result A * option Db :=
  match get_current_user db authorization now with
  | Error e => (Error e, db)
  | Ok current => handler current
  end.

(** *** create_course (main.py 295-310) *)
Record CourseCreate := mkCourseCreate {
  cc_title : string;
  cc_description : option string;
  cc_subject : option string
}.

(** [body.__dict__.get("teacher_id")]: [CourseCreate] declares no such field
    and pydantic ignores extra input, so the lookup finds nothing. *)
Definition course_create_extra_teacher_id (body : CourseCreate) : option string :=
  None.

Definition create_course (db : option Db) (body : CourseCreate) (current : User)
    (new_id : ObjectId) (now : Z) : Result Course * option Db :=
  with_db db (fun d =>
    match require_role current ["teacher"; "admin"] with
    | Error e => (Error e, d)
    | Ok _ =>
        let tid :=
          if String.eqb (role_str (role current)) "teacher" then str_oid (_id current)
          else match course_create_extra_teacher_id body with
               | Some t => if String.eqb t "" then str_oid (_id current) else t
               | None => str_oid (_id current)
               end in
        let doc := {| course_oid := new_id;
                      title := cc_title body;
                      description := cc_description body;
                      subject := cc_subject body;
                      teacher_id := Some tid;
                      course_created_at := now |} in
        (Ok doc, {| user := user d; course := course d ++ [doc];
                    assignment := assignment d |})
    end).

(** *** create_assignment (main.py 325-345) *)
Record AssignmentCreate := mkAssignmentCreate {
  ac_course_id : string;
  ac_title : string;
  ac_description : option string;
  ac_due_date : option Z
}.

(** [course.get("teacher_id") != str(current["_id"])]. *)
Definition teacher_id_differs (c : Course) (actor : User) : bool :=
  match teacher_id c with
  | Some t => negb (String.eqb t (str_oid (_id actor)))
  | None => true
  end.

Definition create_assignment_checks (d : Db) (body : AssignmentCreate)
    (current : User) : Result unit :=
  let* _ := require_role current ["teacher"; "admin"] in
  let* cid := oid (ac_course_id body) in
  match find_course_by_id (course d) cid with
  | None => Error (HTTPException 404 "Course not found")
  | Some c =>
      if String.eqb (role_str (role current)) "teacher" && teacher_id_differs c current
      then Error (HTTPException 403 "Not your course")
      else Ok tt
  end.

Definition create_assignment (db : option Db) (body : AssignmentCreate)
    (current : User) (new_id : ObjectId) (now : Z)
    : Result Assignment * option Db :=
  with_db db (fun d =>
    match create_assignment_checks d body current with
    | Error e => (Error e, d)
    | Ok _ =>
        let doc := {| assignment_oid := new_id;
                      course_id := ac_course_id body;
                      assignment_title := ac_title body;
                      assignment_description := ac_description body;
                      due_date := ac_due_date body;
                      assignment_created_at := now |} in
        (Ok doc, {| user := user d; course := course d;
                    assignment := assignment d ++ [doc] |})
    end).

End Portal.

(** ** The rest of the portal: admin endpoints and seeding *)

(** passlib's contract for hashes it produced: [bcrypt.hash] output is a
    well-formed bcrypt hash, and the secret it was made from verifies
    against it. *)
Class BcryptLaws `{BcryptLib} : Prop := {
  bcrypt_hash_wellformed : forall salt secret,
    existsb (fun ident => String.prefix ident (bcrypt_digest salt secret)) bcrypt_idents
    && bcrypt_tail_ok (bcrypt_digest salt secret) = true;
  bcrypt_check_hash : forall salt secret,
    bcrypt_check secret (bcrypt_digest salt secret) = true
}.

(** [collection.update_one(filter, {"$set": ...})]: the first document
    matching the filter is rewritten, the others are left alone. *)
Fixpoint update_first {A} (p : A -> bool) (f : A -> A) (l : list A) : list A :=
  match l with
  | [] => []
  | x :: r => if p x then f x :: r else x :: update_first p f r
  end.

Section Admin.
Context `{OL : OidLib} `{JL : JwtLib} `{BL : BcryptLib} `{ST : Settings}.

(** [{k: v for k, v in u.items() if k != "password_hash"}]: the account as
    returned to clients, without its hash. *)
Definition without_password_hash (u : User) : User :=
  {| _id := _id u; name := name u; email := email u; password_hash := None;
     role := role u; approved := approved u; created_at := created_at u;
     updated_at := updated_at u |}.

(** *** seed_admin (main.py 179-202)

    [admin_email] and [admin_pass] are [ADMIN_EMAIL] and [ADMIN_PASSWORD]
    (defaults ["admin@portal.com"] and ["admin123"]).  An exception of
    [bcrypt.hash] is swallowed by [except Exception: pass] before
    [insert_one] runs. *)
Definition seed_admin (db : option Db) (admin_email admin_pass : string)
    (new_id : ObjectId) (salt : string) (now : Z) : option Db :=
  match db with
  | None => None
  | Some d =>
      match find_user_by_email (user d) admin_email with
      | Some _ => Some d
      | None =>
          match bcrypt_hash salt admin_pass with
          | Error _ => Some d
          | Ok h =>
              Some {| user := user d ++
                        [{| _id := new_id; name := "Administrator";
                            email := admin_email; password_hash := Some h;
                            role := admin; approved := true;
                            created_at := now; updated_at := now |}];
                      course := course d; assignment := assignment d |}
          end
      end
  end.

(** *** approve_user (main.py 552-561) *)
Record ApproveUserRequest := mkApproveUserRequest {
  ap_user_id : string;
  ap_approved : bool
}.

Definition set_approved (b : bool) (now : Z) (u : User) : User :=
  {| _id := _id u; name := name u; email := email u;
     password_hash := password_hash u; role := role u; approved := b;
     created_at := created_at u; updated_at := now |}.

Definition approve_user (db : option Db) (body : ApproveUserRequest)
    (current : User) (now : Z) : Result User * option Db :=
  with_db db (fun d =>
    match require_role current ["admin"] with
    | Error e => (Error e, d)
    | Ok _ =>
        match oid (ap_user_id body) with
        | Error e => (Error e, d)
        | Ok i =>
            let d' := {| user := update_first (fun u => oid_eqb (_id u) i)
                                   (set_approved (ap_approved body) now) (user d);
                         course := course d; assignment := assignment d |} in
            match find_user_by_id (user d') i with
            | None => (Error (HTTPException 404 "User not found"), d')
            | Some u => (Ok (without_password_hash u), d')
            end
        end
    end).

(** *** assign_teacher (main.py 564-577) *)
Record AssignTeacherRequest := mkAssignTeacherRequest {
  at_course_id : string;
  at_teacher_id : string
}.

Definition set_teacher_id (t : string) (c : Course) : Course :=
  {| course_oid := course_oid c; title := title c; description := description c;
     subject := subject c; teacher_id := Some t;
     course_created_at := course_created_at c |}.

Definition assign_teacher (db : option Db) (body : AssignTeacherRequest)
    (current : User) : Result Course * option Db :=
  with_db db (fun d =>
    match require_role current ["admin"] with
    | Error e => (Error e, d)
    | Ok _ =>
        match oid (at_teacher_id body) with
        | Error e => (Error e, d)
        | Ok tid =>
            match find_user_by_id (user d) tid with
            | Some t =>
                if String.eqb (role_str (role t)) "teacher" then
                  match oid (at_course_id body) with
                  | Error e => (Error e, d)
                  | Ok cid =>
                      let d' := {| user := user d;
                                   course := update_first
                                     (fun c => oid_eqb (course_oid c) cid)
                                     (set_teacher_id (at_teacher_id body)) (course d);
                                   assignment := assignment d |} in
                      match find_course_by_id (course d') cid with
                      | None => (Error (HTTPException 404 "Course not found"), d')
                      | Some c => (Ok c, d')
                      end
                  end
                else (Error (HTTPException 400 "Invalid teacher"), d)
            | None => (Error (HTTPException 400 "Invalid teacher"), d)
            end
        end
    end).

End Admin.

(** ** The rest of the portal: enrollments, submissions, announcements,
    materials and the profile endpoints *)

(** [db[name].find(q).sort("created_at", -1)]: newest first.  MongoDB does
    not fix the order of documents with equal [created_at]; this insertion
    sort is one admissible order, and the properties below only use which
    documents are listed. *)
Fixpoint insert_desc {A} (key : A -> Z) (x : A) (l : list A) : list A :=
  match l with
  | [] => [x]
  | y :: r => if Z.ltb (key y) (key x) then x :: l else y :: insert_desc key x r
  end.

Fixpoint sort_desc {A} (key : A -> Z) (l : list A) : list A :=
  match l with
  | [] => []
  | x :: r => insert_desc key x (sort_desc key r)
  end.

(** A list comprehension whose element expression may raise: the first
    exception propagates. *)
Fixpoint map_result {A B} (f : A -> Result B) (l : list A) : Result (list B) :=
  match l with
  | [] => Ok []
  | x :: r => let* y := f x in let* ys := map_result f r in Ok (y :: ys)
  end.

Section Campus.
Context `{OL : OidLib} `{JL : JwtLib} `{BL : BcryptLib} `{ST : Settings}.
(** [GradeRequest.grade] is a Python [float]; the code stores and returns it
    and never computes with it. *)
Context {Grade : Type}.

Record Enrollment := mkEnrollment {
  enrollment_oid : ObjectId;
  en_course_id : string;
  en_student_id : string;
  status : string;
  en_created_at : Z
}.

(** [graded] is [None] until [grade_submission] sets the [grade] and
    [feedback] keys, which it always sets together. *)
Record Submission := mkSubmission {
  submission_oid : ObjectId;
  sb_assignment_id : string;
  sb_student_id : string;
  content : option string;
  sb_file_url : option string;
  graded : option (Grade * option string);
  sb_created_at : Z;
  sb_updated_at : Z
}.

Inductive Audience := aud_all | aud_course.

Record Announcement := mkAnnouncement {
  announcement_oid : ObjectId;
  an_title : string;
  an_content : string;
  author_id : string;
  an_course_id : option string;
  audience : Audience;
  an_created_at : Z
}.

Record Material := mkMaterial {
  material_oid : ObjectId;
  mt_course_id : string;
  mt_title : string;
  mt_description : option string;
  mt_file_url : option string;
  mt_created_at : Z
}.

(** All collections: [core] holds [user], [course] and [assignment]. *)
Record Store := mkStore {
  core : Db;
  enrollment : list Enrollment;
  submission : list Submission;
  announcement : list Announcement;
  material : list Material
}.

Definition with_store {A} (db : option Store) (k : Store -> Result A * Store)
  : Result A * option Store :=
  match db with
  | None => (Error (HTTPException 500 "Database unavailable"), None)
  | Some s => let (r, s') := k s in (r, Some s')
  end.

Definition set_enrollment (s : Store) (es : list Enrollment) : Store :=
  {| core := core s; enrollment := es; submission := submission s;
     announcement := announcement s; material := material s |}.

Definition set_submissions (s : Store) (xs : list Submission) : Store :=
  {| core := core s; enrollment := enrollment s; submission := xs;
     announcement := announcement s; material := material s |}.

Definition set_announcements (s : Store) (xs : list Announcement) : Store :=
  {| core := core s; enrollment := enrollment s; submission := submission s;
     announcement := xs; material := material s |}.

Definition set_materials (s : Store) (xs : list Material) : Store :=
  {| core := core s; enrollment := enrollment s; submission := submission s;
     announcement := announcement s; material := xs |}.

Definition find_assignment_by_id (xs : list Assignment) (i : ObjectId)
  : option Assignment :=
  find (fun a => oid_eqb (assignment_oid a) i) xs.

Definition find_submission_by_id (xs : list Submission) (i : ObjectId)
  : option Submission :=
  find (fun x => oid_eqb (submission_oid x) i) xs.

(** [db["enrollment"].find({"student_id": sid, "status": "enrolled"})]. *)
Definition enrolled_of (es : list Enrollment) (sid : string) : list Enrollment :=
  filter (fun e => String.eqb (en_student_id e) sid && String.eqb (status e) "enrolled")
    es.

(** [current["role"] == "teacher" and course.get("teacher_id") != str(current["_id"])]
    for a course found by [find_one]. *)
Definition not_your_course (c : Course) (current : User) : bool :=
  String.eqb (role_str (role current)) "teacher" && teacher_id_differs c current.

(** *** me (main.py 274-276) *)
Definition me (current : User) : Result User := Ok (without_password_hash current).

(** *** update_me (main.py 279-289)

    [User] records the keys the code reads; [bio] and [avatar_url] are
    written by this endpoint only and read by none, so a non-empty update
    shows here as the new [name] (when given) and [updated_at]. *)
Record ProfileUpdate := mkProfileUpdate {
  pu_name : option string;
  pu_bio : option string;
  pu_avatar_url : option string
}.

Definition profile_empty (p : ProfileUpdate) : bool :=
  match pu_name p, pu_bio p, pu_avatar_url p with
  | None, None, None => true
  | _, _, _ => false
  end.

Definition set_profile (p : ProfileUpdate) (now : Z) (u : User) : User :=
  {| _id := _id u;
     name := match pu_name p with Some n => n | None => name u end;
     email := email u; password_hash := password_hash u; role := role u;
     approved := approved u; created_at := created_at u; updated_at := now |}.

Definition update_me (db : option Db) (upd : ProfileUpdate) (current : User)
    (now : Z) : Result User * option Db :=
  with_db db (fun d =>
    if profile_empty upd then (Ok current, d)
    else
      let d' := {| user := update_first (fun u => oid_eqb (_id u) (_id current))
                             (set_profile upd now) (user d);
                   course := course d; assignment := assignment d |} in
      match find_user_by_id (user d') (_id current) with
      | None => (Error (Uncaught "AttributeError: 'NoneType' object has no attribute 'items'"), d')
      | Some u => (Ok (without_password_hash u), d')
      end).

(** *** list_users (main.py 543-549) *)
Definition list_users (db : option Db) (current : User)
    : Result (list User) * option Db :=
  with_db db (fun d =>
    match require_role current ["admin"] with
    | Error e => (Error e, d)
    | Ok _ => (Ok (map without_password_hash (sort_desc created_at (user d))), d)
    end).

(** *** my_courses (main.py 313-322) *)
Definition my_courses (db : option Db) (current : User)
    : Result (list Course) * option Db :=
  with_db db (fun d =>
    match require_role current ["teacher"; "admin"] with
    | Error e => (Error e, d)
    | Ok _ =>
        let q := if String.eqb (role_str (role current)) "teacher"
                 then fun c => match teacher_id c with
                               | Some t => String.eqb t (str_oid (_id current))
                               | None => false
                               end
                 else fun _ => true in
        (Ok (sort_desc course_created_at (filter q (course d))), d)
    end).

(** *** student_courses (main.py 431-439) *)
Definition student_courses (db : option Store) (current : User)
    : Result (list Course) * option Store :=
  with_store db (fun s =>
    match require_role current ["student"] with
    | Error e => (Error e, s)
    | Ok _ =>
        let enrolls := enrolled_of (enrollment s) (str_oid (_id current)) in
        match map_result (fun e => oid (en_course_id e)) enrolls with
        | Error e => (Error e, s)
        | Ok [] => (Ok [], s)
        | Ok course_ids =>
            (Ok (filter (fun c => existsb (oid_eqb (course_oid c)) course_ids)
                   (course (core s))), s)
        end
    end).

(** *** enroll_course (main.py 442-461) *)
Record EnrollRequest := mkEnrollRequest { er_course_id : string }.

Definition enroll_course (db : option Store) (body : EnrollRequest)
    (current : User) (new_id : ObjectId) (now : Z)
    : Result Enrollment * option Store :=
  with_store db (fun s =>
    match require_role current ["student"] with
    | Error e => (Error e, s)
    | Ok _ =>
        match oid (er_course_id body) with
        | Error e => (Error e, s)
        | Ok cid =>
            match find_course_by_id (course (core s)) cid with
            | None => (Error (HTTPException 404 "Course not found"), s)
            | Some _ =>
                let sid := str_oid (_id current) in
                let doc := {| enrollment_oid := new_id;
                              en_course_id := er_course_id body;
                              en_student_id := sid; status := "enrolled";
                              en_created_at := now |} in
                let insert := (Ok doc, set_enrollment s (enrollment s ++ [doc])) in
                match find (fun e => String.eqb (en_course_id e) (er_course_id body)
                                     && String.eqb (en_student_id e) sid)
                           (enrollment s) with
                | Some e => if String.eqb (status e) "enrolled" then (Ok e, s) else insert
                | None => insert
                end
            end
        end
    end).

(** *** student_assignments (main.py 464-472) *)
Definition student_assignments (db : option Store) (current : User)
    : Result (list Assignment) * option Store :=
  with_store db (fun s =>
    match require_role current ["student"] with
    | Error e => (Error e, s)
    | Ok _ =>
        let course_ids := map en_course_id
                            (enrolled_of (enrollment s) (str_oid (_id current))) in
        match course_ids with
        | [] => (Ok [], s)
        | _ =>
            (Ok (sort_desc assignment_created_at
                   (filter (fun a => existsb (String.eqb (course_id a)) course_ids)
                      (assignment (core s)))), s)
        end
    end).

(** *** submit_assignment (main.py 475-502) *)
Record SubmissionCreate := mkSubmissionCreate {
  sc_assignment_id : string;
  sc_content : option string;
  sc_file_url : option string
}.

(** [{"$set": doc}] on the existing submission: every key of [doc] is
    rewritten, [_id], [grade] and [feedback] are kept. *)
Definition resubmit (body : SubmissionCreate) (sid : string) (now : Z)
    (x : Submission) : Submission :=
  {| submission_oid := submission_oid x; sb_assignment_id := sc_assignment_id body;
     sb_student_id := sid; content := sc_content body; sb_file_url := sc_file_url body;
     graded := graded x; sb_created_at := now; sb_updated_at := now |}.

(** The response is [serialize_doc(updated)], which is [None] when the
    re-read finds nothing. *)
Definition submit_assignment (db : option Store) (body : SubmissionCreate)
    (current : User) (new_id : ObjectId) (now : Z)
    : Result (option Submission) * option Store :=
  with_store db (fun s =>
    match require_role current ["student"] with
    | Error e => (Error e, s)
    | Ok _ =>
        match oid (sc_assignment_id body) with
        | Error e => (Error e, s)
        | Ok aid =>
            match find_assignment_by_id (assignment (core s)) aid with
            | None => (Error (HTTPException 404 "Assignment not found"), s)
            | Some a =>
                let sid := str_oid (_id current) in
                match find (fun e => String.eqb (en_course_id e) (course_id a)
                                     && String.eqb (en_student_id e) sid
                                     && String.eqb (status e) "enrolled")
                           (enrollment s) with
                | None => (Error (HTTPException 403 "Not enrolled in course"), s)
                | Some _ =>
                    match find (fun x => String.eqb (sb_assignment_id x)
                                           (sc_assignment_id body)
                                         && String.eqb (sb_student_id x) sid)
                               (submission s) with
                    | Some ex =>
                        let s' := set_submissions s
                                    (update_first
                                       (fun x => oid_eqb (submission_oid x)
                                                   (submission_oid ex))
                                       (resubmit body sid now) (submission s)) in
                        (Ok (find_submission_by_id (submission s') (submission_oid ex)),
                         s')
                    | None =>
                        let doc := {| submission_oid := new_id;
                                      sb_assignment_id := sc_assignment_id body;
                                      sb_student_id := sid;
                                      content := sc_content body;
                                      sb_file_url := sc_file_url body;
                                      graded := None;
                                      sb_created_at := now; sb_updated_at := now |} in
                        (Ok (Some doc), set_submissions s (submission s ++ [doc]))
                    end
                end
            end
        end
    end).

(** *** list_submissions (main.py 348-360) and grade_submission (main.py
    363-377): the course check.  [course] is [find_one]'s result; for a
    teacher a missing course makes [course.get] raise. *)
Definition course_guard (course : option Course) (current : User) : Result unit :=
  if String.eqb (role_str (role current)) "teacher" then
    match course with
    | None => Error (Uncaught "AttributeError: 'NoneType' object has no attribute 'get'")
    | Some c => if teacher_id_differs c current
                then Error (HTTPException 403 "Not your course") else Ok tt
    end
  else Ok tt.

Definition list_submissions (db : option Store) (assignment_id : string)
    (current : User) : Result (list Submission) * option Store :=
  with_store db (fun s =>
    let r :=
      let* _ := require_role current ["teacher"; "admin"] in
      let* aid := oid assignment_id in
      match find_assignment_by_id (assignment (core s)) aid with
      | None => Error (HTTPException 404 "Assignment not found")
      | Some a =>
          let* cid := oid (course_id a) in
          let* _ := course_guard (find_course_by_id (course (core s)) cid) current in
          Ok (sort_desc sb_created_at
                (filter (fun x => String.eqb (sb_assignment_id x) assignment_id)
                   (submission s)))
      end in
    (r, s)).

Record GradeRequest := mkGradeRequest {
  gr_submission_id : string;
  gr_grade : Grade;
  gr_feedback : option string
}.

Definition set_grade (body : GradeRequest) (now : Z) (x : Submission) : Submission :=
  {| submission_oid := submission_oid x; sb_assignment_id := sb_assignment_id x;
     sb_student_id := sb_student_id x; content := content x;
     sb_file_url := sb_file_url x;
     graded := Some (gr_grade body, gr_feedback body);
     sb_created_at := sb_created_at x; sb_updated_at := now |}.

(** The checks before the update: the submission, and the course check
    through the submission's assignment ([assignment["course_id"]] raises
    [TypeError] when the assignment is missing). *)
Definition grade_checks (s : Store) (body : GradeRequest) (current : User)
    : Result Submission :=
  let* _ := require_role current ["teacher"; "admin"] in
  let* i := oid (gr_submission_id body) in
  match find_submission_by_id (submission s) i with
  | None => Error (HTTPException 404 "Submission not found")
  | Some sub =>
      let* aid := oid (sb_assignment_id sub) in
      match find_assignment_by_id (assignment (core s)) aid with
      | None => Error (Uncaught "TypeError: 'NoneType' object is not subscriptable")
      | Some a =>
          let* cid := oid (course_id a) in
          let* _ := course_guard (find_course_by_id (course (core s)) cid) current in
          Ok sub
      end
  end.

Definition grade_submission (db : option Store) (body : GradeRequest)
    (current : User) (now : Z) : Result (option Submission) * option Store :=
  with_store db (fun s =>
    match grade_checks s body current with
    | Error e => (Error e, s)
    | Ok sub =>
        let s' := set_submissions s
                    (update_first (fun x => oid_eqb (submission_oid x) (submission_oid sub))
                       (set_grade body now) (submission s)) in
        (Ok (find_submission_by_id (submission s') (submission_oid sub)), s')
    end).

(** *** create_announcement (main.py 380-403) *)
Record AnnouncementCreate := mkAnnouncementCreate {
  anc_title : string;
  anc_content : string;
  anc_course_id : option string;
  anc_audience : Audience
}.

Definition create_announcement (db : option Store) (body : AnnouncementCreate)
    (current : User) (new_id : ObjectId) (now : Z)
    : Result Announcement * option Store :=
  with_store db (fun s =>
    let checks :=
      let* _ := require_role current ["teacher"; "admin"] in
      match anc_audience body with
      | aud_all => Ok tt
      | aud_course =>
          match anc_course_id body with
          | None | Some EmptyString =>
              Error (HTTPException 400 "course_id required for course audience")
          | Some c =>
              let* cid := oid c in
              match find_course_by_id (course (core s)) cid with
              | None => Error (HTTPException 404 "Course not found")
              | Some course =>
                  if not_your_course course current
                  then Error (HTTPException 403 "Not your course") else Ok tt
              end
          end
      end in
    match checks with
    | Error e => (Error e, s)
    | Ok _ =>
        let doc := {| announcement_oid := new_id; an_title := anc_title body;
                      an_content := anc_content body;
                      author_id := str_oid (_id current);
                      an_course_id := anc_course_id body;
                      audience := anc_audience body; an_created_at := now |} in
        (Ok doc, set_announcements s (announcement s ++ [doc]))
    end).

(** *** list_announcements (main.py 505-520) *)
Definition audience_eqb (a b : Audience) : bool :=
  match a, b with
  | aud_all, aud_all | aud_course, aud_course => true
  | _, _ => false
  end.

Definition list_announcements (db : option Store) (current : User)
    : Result (list Announcement) * option Store :=
  with_store db (fun s =>
    let q :=
      match role current with
      | student =>
          let course_ids := map en_course_id
                              (enrolled_of (enrollment s) (str_oid (_id current))) in
          fun a => audience_eqb (audience a) aud_all
                   || audience_eqb (audience a) aud_course
                      && match an_course_id a with
                         | Some c => existsb (String.eqb c) course_ids
                         | None => false
                         end
      | teacher => fun a => audience_eqb (audience a) aud_all
                            || audience_eqb (audience a) aud_course
      | admin => fun _ => true
      end in
    (Ok (sort_desc an_created_at (filter q (announcement s))), s)).

(** *** upload_material (main.py 406-425) *)
Record MaterialCreate := mkMaterialCreate {
  mc_course_id : string;
  mc_title : string;
  mc_description : option string;
  mc_file_url : option string
}.

Definition upload_material (db : option Store) (body : MaterialCreate)
    (current : User) (new_id : ObjectId) (now : Z)
    : Result Material * option Store :=
  with_store db (fun s =>
    let checks :=
      let* _ := require_role current ["teacher"; "admin"] in
      let* cid := oid (mc_course_id body) in
      match find_course_by_id (course (core s)) cid with
      | None => Error (HTTPException 404 "Course not found")
      | Some c =>
          if not_your_course c current
          then Error (HTTPException 403 "Not your course") else Ok tt
      end in
    match checks with
    | Error e => (Error e, s)
    | Ok _ =>
        let doc := {| material_oid := new_id; mt_course_id := mc_course_id body;
                      mt_title := mc_title body; mt_description := mc_description body;
                      mt_file_url := mc_file_url body; mt_created_at := now |} in
        (Ok doc, set_materials s (material s ++ [doc]))
    end).

(** *** list_materials (main.py 523-537).  [{"_id": None}] matches no
    document: every stored document has an [_id]. *)
Definition list_materials (db : option Store) (current : User)
    : Result (list Material) * option Store :=
  with_store db (fun s =>
    let q :=
      match role current with
      | student =>
          let course_ids := map en_course_id
                              (enrolled_of (enrollment s) (str_oid (_id current))) in
          match course_ids with
          | [] => fun _ => false
          | _ => fun m => existsb (String.eqb (mt_course_id m)) course_ids
          end
      | teacher | admin => fun _ => true
      end in
    (Ok (sort_desc mt_created_at (filter q (material s))), s)).

(** The invariant [submit_assignment] keeps on [db["submission"]]: ids are
    distinct (MongoDB's unique [_id]), and each (assignment, student) pair
    has at most one submission. *)
Definition pair_count (xs : list Submission) (aid sid : string) : nat :=
  length (filter (fun x => String.eqb (sb_assignment_id x) aid
                           && String.eqb (sb_student_id x) sid) xs).

Definition submissions_ok (xs : list Submission) : Prop :=
  NoDup (map submission_oid xs) /\ forall aid sid, (pair_count xs aid sid <= 1)%nat.

End Campus.

(** ** Concrete library stand-ins, used to run the model on examples

    - ObjectId: an id is a string [s], printed as ["o" ++ s].
    - JWT: a self-delimiting binary serialisation of the claims (each
      character as ['1'] and its 8 bits, a string closed by ['0']; an integer
      as a sign letter and its binary digits), then ['.'] and the encoded
      signing key standing for the HS256 signature.  Decoding checks the
      structure, then the signature, then the expiry, in PyJWT's order.
    - bcrypt: a hash is ["$2b$12$"], the salt and the secret. *)

Definition toy_oid : OidLib := {|
  ObjectId := string;
  oid_eqb := String.eqb;
  str_oid := fun s => String "o" s;
  parse_oid := fun s => match s with String "o" r => Some r | _ => None end
|}.

Definition bit_char (b : bool) : ascii := if b then "1"%char else "0"%char.

Definition char_bit (c : ascii) : option bool :=
  if Ascii.eqb c "1" then Some true
  else if Ascii.eqb c "0" then Some false
  else None.

Definition enc_char (c : ascii) (tail : string) : string :=
  match c with
  | Ascii b0 b1 b2 b3 b4 b5 b6 b7 =>
      String (bit_char b0) (String (bit_char b1) (String (bit_char b2)
      (String (bit_char b3) (String (bit_char b4) (String (bit_char b5)
      (String (bit_char b6) (String (bit_char b7) tail)))))))
  end.

Definition dec_char (s : string) : option (ascii * string) :=
  match s with
  | String c0 (String c1 (String c2 (String c3 (String c4 (String c5
      (String c6 (String c7 r))))))) =>
      match char_bit c0, char_bit c1, char_bit c2, char_bit c3,
            char_bit c4, char_bit c5, char_bit c6, char_bit c7 with
      | Some b0, Some b1, Some b2, Some b3, Some b4, Some b5, Some b6, Some b7 =>
          Some (Ascii b0 b1 b2 b3 b4 b5 b6 b7, r)
      | _, _, _, _, _, _, _, _ => None
      end
  | _ => None
  end.

Fixpoint enc_str (s tail : string) : string :=
  match s with
  | EmptyString => String "0" tail
  | String c r => String "1" (enc_char c (enc_str r tail))
  end.

Fixpoint dec_str (fuel : nat) (s : string) : option (string * string) :=
  match fuel with
  | O => None
  | S f =>
      match s with
      | String "0" r => Some (EmptyString, r)
      | String "1" r =>
          match dec_char r with
          | Some (c, r') =>
              match dec_str f r' with
              | Some (w, r'') => Some (String c w, r'')
              | None => None
              end
          | None => None
          end
      | _ => None
      end
  end.

Fixpoint enc_pos (p : positive) (tail : string) : string :=
  match p with
  | xH => String "0" tail
  | xO q => String "1" (String "0" (enc_pos q tail))
  | xI q => String "1" (String "1" (enc_pos q tail))
  end.

Fixpoint dec_pos (fuel : nat) (s : string) : option (positive * string) :=
  match fuel with
  | O => None
  | S f =>
      match s with
      | String "0" r => Some (xH, r)
      | String "1" (String b r) =>
          match char_bit b, dec_pos f r with
          | Some false, Some (q, r') => Some (xO q, r')
          | Some true, Some (q, r') => Some (xI q, r')
          | _, _ => None
          end
      | _ => None
      end
  end.

Definition enc_Z (z : Z) (tail : string) : string :=
  match z with
  | Z0 => String "z" tail
  | Zpos p => String "p" (enc_pos p tail)
  | Zneg p => String "n" (enc_pos p tail)
  end.

Definition dec_Z (fuel : nat) (s : string) : option (Z * string) :=
  match s with
  | String "z" r => Some (Z0, r)
  | String "p" r =>
      match dec_pos fuel r with Some (p, r') => Some (Zpos p, r') | None => None end
  | String "n" r =>
      match dec_pos fuel r with Some (p, r') => Some (Zneg p, r') | None => None end
  | _ => None
  end.

Definition toy_jwt_encode (p : Payload) (key : string) : string :=
  enc_str (sub p) (enc_str (prole p) (enc_Z (exp p)
    (String "." (enc_str key EmptyString)))).

Definition toy_jwt_decode (token key : string) (now : Z) : DecodeResult :=
  let f := String.length token in
  match dec_str f token with
  | Some (s, r1) =>
      match dec_str f r1 with
      | Some (rl, r2) =>
          match dec_Z f r2 with
          | Some (e, String "." r3) =>
              match dec_str f r3 with
              | Some (sig, EmptyString) =>
                  if String.eqb sig key then
                    if e <=? now then DecExpired else DecOk (mkPayload s rl e)
                  else DecInvalid
              | _ => DecInvalid
              end
          | _ => DecInvalid
          end
      | None => DecInvalid
      end
  | None => DecInvalid
  end.

Definition toy_jwt_signature_ok (token key : string) : bool :=
  let f := String.length token in
  match dec_str f token with
  | Some (_, r1) =>
      match dec_str f r1 with
      | Some (_, r2) =>
          match dec_Z f r2 with
          | Some (_, String "." r3) =>
              match dec_str f r3 with
              | Some (sig, EmptyString) => String.eqb sig key
              | _ => false
              end
          | _ => false
          end
      | None => false
      end
  | None => false
  end.

Definition toy_jwt : JwtLib := {|
  jwt_encode := toy_jwt_encode;
  jwt_decode := toy_jwt_decode;
  jwt_signature_ok := toy_jwt_signature_ok
|}.

Definition toy_bcrypt : BcryptLib := {|
  bcrypt_digest := fun salt secret => "$2b$12$" ++ salt ++ secret;
  bcrypt_check := fun secret h =>
    String.eqb (substring (String.length h - String.length secret)
                          (String.length secret) h) secret;
  bcrypt_tail_ok := fun _ => true
|}.

Definition dev_settings : Settings := {|
  SECRET_KEY := "dev-secret-key-change-me";
  JWT_EXP_MIN := 60
|}.

(** * Properties *)

(** ** Python helpers *)

Lemma split_on_no_char (c : ascii) (t : string) :
  no_char c t = true -> split_on c t = [t].
Proof.
  induction t as [|x t IH]; simpl; [reflexivity|].
  intros H. apply andb_prop in H as [Hx Ht].
  apply negb_true_iff in Hx. rewrite Hx, (IH Ht). reflexivity.
Qed.

Lemma split_on_sep (c : ascii) (a b : string) :
  no_char c a = true -> split_on c (a ++ String c b) = a :: split_on c b.
Proof.
  induction a as [|x a IH]; simpl.
  - intros _. rewrite Ascii.eqb_refl. reflexivity.
  - intros H. apply andb_prop in H as [Hx Ha].
    apply negb_true_iff in Hx. rewrite Hx, (IH Ha). reflexivity.
Qed.

Lemma split_header (c : ascii) (scheme token : string) :
  no_char c scheme = true -> no_char c token = true ->
  split_on c (scheme ++ String c token) = [scheme; token].
Proof.
  intros Hs Ht. rewrite (split_on_sep _ _ _ Hs), (split_on_no_char _ _ Ht).
  reflexivity.
Qed.

Lemma split_on_nonempty (c : ascii) (s : string) : split_on c s <> [].
Proof.
  destruct s as [|x s]; simpl; [discriminate|].
  destruct (Ascii.eqb x c); [discriminate|].
  destruct (split_on c s); discriminate.
Qed.

(** A string holding the separator splits into at least two pieces. *)
Lemma split_on_has_sep (c : ascii) (s : string) :
  no_char c s = false -> exists a b r, split_on c s = a :: b :: r.
Proof.
  induction s as [|x s IH]; simpl; [discriminate|]. intros H.
  destruct (Ascii.eqb x c) eqn:E.
  - destruct (split_on c s) as [|b r] eqn:S.
    + exfalso. exact (split_on_nonempty c s S).
    + exists EmptyString, b, r. reflexivity.
  - simpl in H. destruct (IH H) as (a & b & r & ->).
    exists (String x a), b, r. reflexivity.
Qed.

Lemma existsb_eqb_In (x : string) (l : list string) :
  existsb (String.eqb x) l = true <-> In x l.
Proof.
  rewrite existsb_exists. split.
  - intros (y & Hy & E). apply String.eqb_eq in E. subst. exact Hy.
  - intros H. exists x. split; [exact H | apply String.eqb_refl].
Qed.

Section Proofs.
Context {OL : OidLib} {OLw : @OidLaws OL} {JL : JwtLib} {JLw : @JwtLaws JL}
        {BL : BcryptLib} {ST : Settings}.

(** ** passlib's checks on the password *)

Lemma utf8_length_le (s : string) : (utf8_length s <= String.length s)%nat.
Proof. induction s as [|c s IH]; simpl; [lia|]. destruct (utf8_lead c); lia. Qed.

Lemma validate_secret_ok (n : nat) :
  (n <= MAX_PASSWORD_SIZE)%nat -> validate_secret n = Ok tt.
Proof.
  intros H. unfold validate_secret.
  destruct (Nat.ltb_spec MAX_PASSWORD_SIZE n); [lia|reflexivity].
Qed.

Lemma validate_secret_error (n : nat) (e : Err) :
  validate_secret n = Error e -> e = password_size_error.
Proof.
  unfold validate_secret. destruct (Nat.ltb _ _); congruence.
Qed.

Lemma bcrypt_secret_ok_spec (s : string) :
  bcrypt_secret_ok s = true <->
  (String.length s <= MAX_PASSWORD_SIZE)%nat /\ no_char NUL s = true.
Proof. unfold bcrypt_secret_ok. rewrite andb_true_iff, Nat.leb_le. tauto. Qed.

Lemma bcrypt_norm_secret_ok (s : string) :
  bcrypt_secret_ok s = true -> bcrypt_norm_secret s = Ok tt.
Proof.
  intros H. apply bcrypt_secret_ok_spec in H as [H1 H2].
  unfold bcrypt_norm_secret. rewrite (validate_secret_ok _ H1). cbn [bind].
  rewrite H2. reflexivity.
Qed.

Lemma bcrypt_norm_secret_rejected (s : string) :
  bcrypt_secret_ok s = false ->
  exists msg, bcrypt_norm_secret s = Error (Uncaught msg).
Proof.
  unfold bcrypt_secret_ok, bcrypt_norm_secret, validate_secret. intros H.
  destruct (Nat.ltb_spec MAX_PASSWORD_SIZE (String.length s)) as [L|L];
    [eexists; reflexivity|].
  cbn [bind]. destruct (no_char NUL s) eqn:E; [|eexists; reflexivity].
  apply Nat.leb_le in L. rewrite L in H. discriminate.
Qed.

Lemma bcrypt_hash_ok (salt s : string) :
  bcrypt_secret_ok s = true -> bcrypt_hash salt s = Ok (bcrypt_digest salt s).
Proof.
  intros H. unfold bcrypt_hash. pose proof (utf8_length_le s).
  pose proof (proj1 (proj1 (bcrypt_secret_ok_spec s) H)).
  rewrite (validate_secret_ok (utf8_length s)) by lia. cbn [bind].
  rewrite (bcrypt_norm_secret_ok s H). reflexivity.
Qed.

Lemma bcrypt_hash_rejected (salt s : string) :
  bcrypt_secret_ok s = false ->
  exists msg, bcrypt_hash salt s = Error (Uncaught msg).
Proof.
  intros H. unfold bcrypt_hash.
  destruct (validate_secret (utf8_length s)) as [[]|e] eqn:V; cbn [bind].
  - destruct (bcrypt_norm_secret_rejected s H) as [msg E]. rewrite E.
    exists msg. reflexivity.
  - apply validate_secret_error in V. subst. eexists. reflexivity.
Qed.

(** Whether [bcrypt.hash] raises depends on the secret only. *)
Lemma bcrypt_hash_error_salt (s1 s2 secret : string) (e : Err) :
  bcrypt_hash s1 secret = Error e -> bcrypt_hash s2 secret = Error e.
Proof.
  unfold bcrypt_hash.
  destruct (validate_secret (utf8_length secret)); cbn [bind]; [|auto].
  destruct (bcrypt_norm_secret secret); cbn [bind]; [discriminate|auto].
Qed.

Lemma bcrypt_verify_accepted (s h : string) :
  bcrypt_secret_ok s = true ->
  bcrypt_verify s h =
    if existsb (fun ident => String.prefix ident h) bcrypt_idents
       && bcrypt_tail_ok h
    then Ok (bcrypt_check s h)
    else Error (Uncaught "ValueError: not a valid bcrypt hash").
Proof.
  intros H. unfold bcrypt_verify. pose proof (utf8_length_le s).
  pose proof (proj1 (proj1 (bcrypt_secret_ok_spec s) H)).
  rewrite (validate_secret_ok (utf8_length s)) by lia. cbn [bind].
  rewrite (bcrypt_norm_secret_ok s H). reflexivity.
Qed.

(** A secret passlib refuses makes [bcrypt.verify] raise, whatever the
    hash. *)
Lemma bcrypt_verify_rejected (s h : string) :
  bcrypt_secret_ok s = false ->
  exists msg, bcrypt_verify s h = Error (Uncaught msg).
Proof.
  intros H. unfold bcrypt_verify.
  destruct (validate_secret (utf8_length s)) as [[]|e] eqn:V; cbn [bind].
  - destruct (_ && _); [|eexists; reflexivity].
    destruct (bcrypt_norm_secret_rejected s H) as [msg E]. rewrite E.
    exists msg. reflexivity.
  - apply validate_secret_error in V. subst. eexists. reflexivity.
Qed.

Lemma find_user_by_id_sound (us : list User) (i : ObjectId) (u : User) :
  find_user_by_id us i = Some u -> In u us /\ _id u = i.
Proof.
  unfold find_user_by_id. intros H.
  destruct (find_some _ _ H) as [Hin E].
  apply oid_eqb_spec in E. auto.
Qed.

Lemma find_user_by_id_complete (us : list User) (i : ObjectId) :
  (exists a, In a us /\ _id a = i) ->
  exists u, find_user_by_id us i = Some u /\ _id u = i.
Proof.
  intros (a & Hin & Ha).
  destruct (find_user_by_id us i) as [u|] eqn:F.
  - exists u. split; [reflexivity|]. apply (find_user_by_id_sound _ _ _ F).
  - exfalso. unfold find_user_by_id in F.
    pose proof (find_none _ _ F a Hin) as N. simpl in N.
    rewrite Ha in N.
    assert (oid_eqb i i = true) by (apply oid_eqb_spec; reflexivity).
    congruence.
Qed.

Lemma find_user_by_id_app_fresh (us : list User) (u : User) :
  find_user_by_id us (_id u) = None ->
  find_user_by_id (us ++ [u]) (_id u) = Some u.
Proof.
  unfold find_user_by_id. induction us as [|a us IH]; simpl.
  - intros _. assert (oid_eqb (_id u) (_id u) = true)
      by (apply oid_eqb_spec; reflexivity).
    rewrite H. reflexivity.
  - destruct (oid_eqb (_id a) (_id u)); [discriminate|]. exact IH.
Qed.

Lemma get_current_user_nonempty (db : option Db) (h : string) (now : Z) :
  h <> EmptyString ->
  get_current_user db (Some h) now =
  match get_current_user_try db h now with
  | inl u => Ok u
  | inr true => Error (HTTPException 401 "Token expired")
  | inr false => Error (HTTPException 401 "Invalid token")
  end.
Proof. destruct h; [contradiction|reflexivity]. Qed.

(** Verifying a bearer header whose token was signed with [SECRET_KEY]:
    the scheme test, then [jwt.decode], then the lookup of the subject. *)
Lemma get_current_user_signed (db : option Db) (scheme : string) (p : Payload)
    (now : Z) :
  no_char " " scheme = true -> lower scheme = "bearer" ->
  get_current_user db (Some (scheme ++ String " " (jwt_encode p SECRET_KEY))) now =
  if exp p <=? now then Error (HTTPException 401 "Token expired")
  else if String.eqb (sub p) "" then Error (HTTPException 401 "Invalid token")
  else match db with
       | None => Error (HTTPException 401 "Invalid token")
       | Some d =>
           match parse_oid (sub p) with
           | None => Error (HTTPException 401 "Invalid token")
           | Some i =>
               match find_user_by_id (user d) i with
               | Some u => Ok u
               | None => Error (HTTPException 401 "Invalid token")
               end
           end
       end.
Proof.
  intros Hs Hl.
  rewrite get_current_user_nonempty by (destruct scheme; discriminate).
  unfold get_current_user_try.
  rewrite (split_header _ _ _ Hs (jwt_encode_no_space _ _)), Hl.
  simpl. rewrite jwt_decode_encode.
  destruct (exp p <=? now); [reflexivity|].
  destruct (String.eqb (sub p) ""); [reflexivity|].
  destruct db as [d|]; [|reflexivity].
  unfold oid. destruct (parse_oid (sub p)); [|reflexivity].
  destruct (find_user_by_id (user d) o); reflexivity.
Qed.

(** The header ["Bearer " ++ create_token u now0] before expiry resolves
    to the first account stored under [u]'s id. *)
Lemma get_current_user_create_token (d : Db) (u : User) (now0 now : Z) :
  now < now0 + JWT_EXP_MIN * 60 ->
  get_current_user (Some d) (Some ("Bearer " ++ create_token u now0)) now =
  match find_user_by_id (user d) (_id u) with
  | Some a => Ok a
  | None => Error (HTTPException 401 "Invalid token")
  end.
Proof.
  intros Hlive. unfold create_token.
  change ("Bearer " ++ ?t) with ("Bearer" ++ String " " t).
  rewrite get_current_user_signed by reflexivity. simpl exp. simpl sub.
  destruct (Z.leb_spec (now0 + JWT_EXP_MIN * 60) now); [lia|].
  destruct (String.eqb (str_oid (_id u)) "") eqn:E.
  { apply String.eqb_eq, str_oid_nonempty in E. contradiction. }
  rewrite parse_str_oid. reflexivity.
Qed.

(** ** C1 *)

(** C1: round trip of issuance and verification.  For any account [u]
    (its id and role are what [create_token] signs), while the token has not
    expired and some account with [u]'s id is still stored, presenting
    ["Bearer " ++ create_token u now0] to [get_current_user] returns an
    account whose id is [u]'s id. *)
Theorem verify_issue_roundtrip (d : Db) (u : User) (now0 now : Z) :
  (exists a, In a (user d) /\ _id a = _id u) ->
  now < now0 + JWT_EXP_MIN * 60 ->
  exists a,
    get_current_user (Some d) (Some ("Bearer " ++ create_token u now0)) now = Ok a
    /\ _id a = _id u.
Proof.
  intros Hex Hlive.
  rewrite (get_current_user_create_token d u now0 now Hlive).
  destruct (find_user_by_id_complete _ _ Hex) as (a & F & E).
  rewrite F. exists a. auto.
Qed.

(** ** C2 *)

(** C2: once the email resolves to an account [u] and the password
    verifies against its stored hash, [login] answers 403 "Account pending
    approval" when [u] is not an admin and not approved, and otherwise one
    token response carrying [create_token u now]; the store is untouched. *)
Theorem login_verified_password (d : Db) (rq : LoginRequest) (u : User) (now : Z) :
  find_user_by_email (user d) (lq_email rq) = Some u ->
  bcrypt_verify (lq_password rq) (stored_hash u) = Ok true ->
  (role u <> admin -> approved u = false ->
     login (Some d) rq now =
       (Error (HTTPException 403 "Account pending approval"), Some d)) /\
  (role u = admin \/ approved u = true ->
     login (Some d) rq now = (Ok (token_response (create_token u now)), Some d)).
Proof.
  intros Hf Hv. unfold login, with_db, login_body. rewrite Hf, Hv. simpl.
  destruct (role u), (approved u); simpl; split; intros;
    solve [reflexivity | congruence | intuition congruence].
Qed.

(** ** C3 *)

(** C3 (as the code does it): registration dispatches on the requested
    role.  With role admin it answers 400 "Cannot self-register as admin"
    and leaves the store as it was, whatever the rest of the request.  For a
    student or teacher request whose email is not yet registered: when
    passlib accepts the password (at most 4096 UTF-8 bytes, no NUL), role
    student appends an account with [approved = true] and role teacher one
    with [approved = false], both answering with the token of the new
    account; when passlib refuses it, [bcrypt.hash] raises, the request
    ends in an uncaught exception (a 500), nothing is inserted and no token
    is issued. *)
Theorem register_role_dispatch (d : Db) (rq : RegisterRequest)
    (new_id : ObjectId) (salt : string) (now : Z) :
  (rq_role rq = admin ->
     register (Some d) rq new_id salt now =
       (Error (HTTPException 400 "Cannot self-register as admin"), Some d)) /\
  (find_user_by_email (user d) (rq_email rq) = None ->
   (bcrypt_secret_ok (rq_password rq) = true ->
   (rq_role rq = student ->
      exists u, approved u = true /\ role u = student /\ _id u = new_id /\
        email u = rq_email rq /\
        register (Some d) rq new_id salt now =
          (Ok (token_response (create_token u now)),
           Some {| user := user d ++ [u]; course := course d;
                   assignment := assignment d |})) /\
   (rq_role rq = teacher ->
      exists u, approved u = false /\ role u = teacher /\ _id u = new_id /\
        email u = rq_email rq /\
        register (Some d) rq new_id salt now =
          (Ok (token_response (create_token u now)),
           Some {| user := user d ++ [u]; course := course d;
                   assignment := assignment d |}))) /\
   (rq_role rq <> admin -> bcrypt_secret_ok (rq_password rq) = false ->
      exists msg,
        register (Some d) rq new_id salt now = (Error (Uncaught msg), Some d))).
Proof.
  destruct rq as [n e pw r]; cbn [rq_role rq_email rq_password].
  unfold register, with_db. cbn [rq_role rq_email rq_password rq_name].
  split.
  - intros ->. reflexivity.
  - intros Hf. split.
    + intros Hp. rewrite (bcrypt_hash_ok salt pw Hp).
      split; intros ->; simpl; rewrite Hf; eexists; repeat split; reflexivity.
    + intros Hr Hp. destruct (bcrypt_hash_rejected salt pw Hp) as [msg E].
      rewrite E. exists msg.
      destruct r; [| |contradiction]; simpl; rewrite Hf; reflexivity.
Qed.

(** ** C4 *)

(** C4 (what the code does): let [e1] be an unknown email and [e2] the
    email of a stored account [u].  (1) When [bcrypt.verify] returns
    [False] for the password [pw2] against [u]'s hash, the two logins give
    the same answer, 401 "Invalid credentials", with the same (unchanged)
    store.  (2) But for a password passlib refuses (over 4096 UTF-8 bytes,
    or containing NUL), the unknown email still gets 401 while the known
    one makes [bcrypt.verify] raise, and the request ends in an uncaught
    exception (a 500): the two runs can be told apart. *)
Theorem login_failure_indistinguishable (d : Db) (e1 pw1 e2 pw2 : string)
    (u : User) (now1 now2 : Z) :
  find_user_by_email (user d) e1 = None ->
  find_user_by_email (user d) e2 = Some u ->
  (bcrypt_verify pw2 (stored_hash u) = Ok false ->
   login (Some d) (mkLoginRequest e1 pw1) now1 =
     login (Some d) (mkLoginRequest e2 pw2) now2 /\
   login (Some d) (mkLoginRequest e1 pw1) now1 =
     (Error (HTTPException 401 "Invalid credentials"), Some d)) /\
  (bcrypt_secret_ok pw2 = false ->
   login (Some d) (mkLoginRequest e1 pw2) now1 =
     (Error (HTTPException 401 "Invalid credentials"), Some d) /\
   exists msg,
     login (Some d) (mkLoginRequest e2 pw2) now2 = (Error (Uncaught msg), Some d)).
Proof.
  intros H1 H2. split.
  - intros Hv. unfold login, with_db, login_body; simpl.
    rewrite H1, H2, Hv. simpl. split; reflexivity.
  - intros Hp. destruct (bcrypt_verify_rejected pw2 (stored_hash u) Hp) as [msg E].
    unfold login, with_db, login_body. cbn [lq_email lq_password].
    rewrite H1, H2, E. split; [reflexivity|]. exists msg. reflexivity.
Qed.

(** ** C5 *)

Lemma require_role_In (u : User) (roles : list string) :
  require_role u roles = Ok tt <-> In (role_str (role u)) roles.
Proof.
  unfold require_role. rewrite <- existsb_eqb_In.
  destruct (existsb _ roles); split; congruence.
Qed.

(** C5: authentication and the role gate never read [approved].  (1) For
    any stored account [u], whatever its [approved] flag, an unexpired token
    issued for it resolves to [u], and [require_role u roles] passes exactly
    when [u]'s role is in [roles].  (2) In particular a teacher who just
    registered (with a password passlib accepts, so that [register]
    succeeds) is stored with [approved = false], yet the registration
    token authenticates as that account, passes [require_role] for
    ["teacher"; "admin"], and [create_course] accepts it. *)
Theorem auth_ignores_approval (d : Db) :
  (forall (u : User) (t0 now : Z) (roles : list string),
     find_user_by_id (user d) (_id u) = Some u ->
     now < t0 + JWT_EXP_MIN * 60 ->
     get_current_user (Some d) (Some ("Bearer " ++ create_token u t0)) now = Ok u /\
     (require_role u roles = Ok tt <-> In (role_str (role u)) roles)) /\
  (forall (rq : RegisterRequest) (new_id : ObjectId) (salt : string)
          (t0 now : Z) (body : CourseCreate) (cid : ObjectId),
     rq_role rq = teacher ->
     bcrypt_secret_ok (rq_password rq) = true ->
     find_user_by_email (user d) (rq_email rq) = None ->
     find_user_by_id (user d) new_id = None ->
     now < t0 + JWT_EXP_MIN * 60 ->
     exists tr d' u c,
       register (Some d) rq new_id salt t0 = (Ok tr, Some d') /\
       role u = teacher /\ approved u = false /\
       get_current_user (Some d') (Some ("Bearer " ++ access_token tr)) now = Ok u /\
       require_role u ["teacher"; "admin"] = Ok tt /\
       fst (endpoint (Some d') (Some ("Bearer " ++ access_token tr)) now
              (fun current => create_course (Some d') body current cid now))
         = Ok c /\
       teacher_id c = Some (str_oid (_id u))).
Proof.
  split.
  - intros u t0 now roles Hf Hlive. split.
    + rewrite (get_current_user_create_token d u t0 now Hlive), Hf. reflexivity.
    + apply require_role_In.
  - intros [n e pw r] new_id salt t0 now body cid Hr Hp He Hi Hlive.
    cbn [rq_role rq_email rq_password] in Hr, Hp, He. subst r.
    unfold register, with_db. cbn [rq_role rq_email rq_password rq_name].
    rewrite (bcrypt_hash_ok salt pw Hp). simpl. rewrite He.
    set (u := {| _id := new_id; name := n; email := e;
                 password_hash := Some (bcrypt_digest salt pw); role := teacher;
                 approved := false; created_at := t0; updated_at := t0 |}).
    set (d' := {| user := user d ++ [u]; course := course d;
                  assignment := assignment d |}).
    assert (Hg : get_current_user (Some d')
                   (Some ("Bearer " ++ create_token u t0)) now = Ok u).
    { rewrite (get_current_user_create_token d' u t0 now Hlive).
      change (user d') with (user d ++ [u])%list.
      rewrite (find_user_by_id_app_fresh (user d) u Hi). reflexivity. }
    eexists _, d', u, _. split; [reflexivity|].
    split; [reflexivity|]. split; [reflexivity|].
    unfold token_response. cbn [access_token]. split; [exact Hg|].
    split; [reflexivity|].
    unfold endpoint. cbn [append] in Hg. rewrite Hg.
    split; reflexivity.
Qed.

(** ** C6 *)

(** C6 (as the code does it): registering with an email already stored
    fails, leaves the store unchanged and issues no token.  For a student or
    teacher request the answer is 400 "Email already registered"; for an
    admin request the admin check comes first and the answer is 400 "Cannot
    self-register as admin". *)
Theorem register_duplicate_email (d : Db) (rq : RegisterRequest)
    (new_id : ObjectId) (salt : string) (now : Z) (u : User) :
  find_user_by_email (user d) (rq_email rq) = Some u ->
  exists e,
    register (Some d) rq new_id salt now = (Error e, Some d) /\
    (rq_role rq <> admin -> e = HTTPException 400 "Email already registered") /\
    (rq_role rq = admin -> e = HTTPException 400 "Cannot self-register as admin").
Proof.
  destruct rq as [n em pw r]; simpl. intros Hf.
  unfold register, with_db; simpl.
  destruct r; simpl; try rewrite Hf; eexists; split; try reflexivity;
    split; intros; congruence.
Qed.

(** ** C7 *)

(** C7: the access gate.  [require_role] passes exactly when the role is in
    the allowed list and otherwise answers 403 "Forbidden".  In
    [create_assignment], for an existing course not recorded as owned by the
    actor, a teacher is refused with 403 "Not your course" and nothing is
    inserted, while an admin gets the assignment inserted, ownership
    notwithstanding. *)
Theorem access_gate :
  (forall (u : User) (roles : list string),
     (require_role u roles = Ok tt <-> In (role_str (role u)) roles) /\
     (require_role u roles = Error (HTTPException 403 "Forbidden") <->
        ~ In (role_str (role u)) roles)) /\
  (forall (d : Db) (body : AssignmentCreate) (actor : User) (c : Course)
          (cid new_id : ObjectId) (now : Z),
     parse_oid (ac_course_id body) = Some cid ->
     find_course_by_id (course d) cid = Some c ->
     (role actor = teacher -> teacher_id c <> Some (str_oid (_id actor)) ->
        create_assignment (Some d) body actor new_id now =
          (Error (HTTPException 403 "Not your course"), Some d)) /\
     (role actor = admin ->
        exists a, create_assignment (Some d) body actor new_id now =
          (Ok a, Some {| user := user d; course := course d;
                         assignment := assignment d ++ [a] |}))).
Proof.
  split.
  - intros u roles. split; [apply require_role_In|].
    unfold require_role. rewrite <- existsb_eqb_In.
    destruct (existsb _ roles); split; intros H; congruence.
  - intros d body actor c cid new_id now Hp Hc.
    unfold create_assignment, with_db, create_assignment_checks.
    split.
    + intros Hr Hown. unfold require_role. rewrite Hr. simpl.
      unfold oid. rewrite Hp. simpl. rewrite Hc.
      unfold teacher_id_differs.
      destruct (teacher_id c) as [t|]; [|reflexivity].
      destruct (String.eqb_spec t (str_oid (_id actor))) as [E|E];
        [subst; contradiction|reflexivity].
    + intros Hr. unfold require_role. rewrite Hr. simpl.
      unfold oid. rewrite Hp. simpl. rewrite Hc. simpl.
      eexists. reflexivity.
Qed.

(** ** C8 *)

(** C8 (as the code does it), for a header [scheme token] whose scheme is
    bearer (any letter case).  (1) A token carrying claims signed with
    [SECRET_KEY] whose expiry has passed ([exp <= now]) is rejected with 401
    "Token expired" and with no other answer, whether or not its subject
    still exists and whether or not the database is up.  (2) A token that
    fails the structure or signature check is rejected with 401 "Invalid
    token" at every time [now], so also once the expiry its claims carry has
    passed: the signature is checked before the expiry. *)
Theorem expired_token_rejected (db : option Db) (scheme : string) (now : Z) :
  no_char " " scheme = true -> lower scheme = "bearer" ->
  (forall p : Payload, exp p <= now ->
     get_current_user db (Some (scheme ++ String " " (jwt_encode p SECRET_KEY))) now
       = Error (HTTPException 401 "Token expired")) /\
  (forall token : string, jwt_signature_ok token SECRET_KEY = false ->
     get_current_user db (Some (scheme ++ String " " token)) now
       = Error (HTTPException 401 "Invalid token")).
Proof.
  intros Hs Hl. split.
  - intros p Hexp. rewrite (get_current_user_signed db scheme p now Hs Hl).
    destruct (Z.leb_spec (exp p) now); [reflexivity|lia].
  - intros token Hsig.
    rewrite get_current_user_nonempty by (destruct scheme; discriminate).
    unfold get_current_user_try. rewrite (split_on_sep _ _ _ Hs).
    destruct (no_char " " token) eqn:Ht.
    + rewrite (split_on_no_char _ _ Ht), Hl. simpl.
      rewrite (jwt_decode_bad_signature _ _ now Hsig). reflexivity.
    + destruct (split_on_has_sep _ _ Ht) as (a & b & r & ->). reflexivity.
Qed.

(** ** C9 *)

(** C9 (what the code does): when the account found by email has a stored
    hash that passlib cannot parse (in particular a missing [password_hash],
    read as [""]), [bcrypt.verify] raises, [login] does not catch it, and
    the request ends in an uncaught exception (a 500), not in 401 "Invalid
    credentials", whatever the password.  For a password of at most 4096
    characters the exception is [ValueError] ("not a valid bcrypt hash");
    a longer one is refused first with [PasswordSizeError]. *)
Theorem login_malformed_hash_uncaught (d : Db) (rq : LoginRequest) (u : User)
    (now : Z) :
  find_user_by_email (user d) (lq_email rq) = Some u ->
  existsb (fun ident => String.prefix ident (stored_hash u)) bcrypt_idents = false ->
  (exists msg, login (Some d) rq now = (Error (Uncaught msg), Some d)) /\
  ((utf8_length (lq_password rq) <= MAX_PASSWORD_SIZE)%nat ->
   login (Some d) rq now =
     (Error (Uncaught "ValueError: not a valid bcrypt hash"), Some d)).
Proof.
  intros Hf Hm. unfold login, with_db, login_body. rewrite Hf.
  unfold bcrypt_verify. rewrite Hm. cbn [andb].
  split.
  - destruct (validate_secret _) as [[]|e] eqn:V; cbn [bind];
      [eexists; reflexivity|].
    apply validate_secret_error in V. subst. eexists. reflexivity.
  - intros Hl. rewrite (validate_secret_ok _ Hl). reflexivity.
Qed.

(** ** C10 *)

(** C10 (as the code does it): an absent or empty [Authorization] header
    answers 401 "Missing Authorization header"; a header [scheme token]
    whose scheme is not bearer (in any letter case) answers 401 "Invalid
    token".  Both are 401, with different details. *)
Theorem header_missing_vs_bad_scheme (db : option Db) (now : Z) :
  get_current_user db None now =
    Error (HTTPException 401 "Missing Authorization header") /\
  get_current_user db (Some "") now =
    Error (HTTPException 401 "Missing Authorization header") /\
  (forall scheme token : string,
     no_char " " scheme = true -> no_char " " token = true ->
     lower scheme <> "bearer" ->
     get_current_user db (Some (scheme ++ String " " token)) now =
       Error (HTTPException 401 "Invalid token")).
Proof.
  split; [reflexivity|]. split; [reflexivity|].
  intros scheme token Hs Ht Hl.
  rewrite get_current_user_nonempty by (destruct scheme; discriminate).
  unfold get_current_user_try. rewrite (split_header _ _ _ Hs Ht).
  apply String.eqb_neq in Hl. rewrite Hl. reflexivity.
Qed.

End Proofs.

(** * Properties of the rest of the portal *)

Lemma find_app_none {A} (q : A -> bool) (l1 l2 : list A) :
  find q l1 = None -> find q (l1 ++ l2) = find q l2.
Proof.
  induction l1 as [|x l1 IH]; simpl; [auto|].
  destruct (q x); [discriminate|exact IH].
Qed.

Lemma update_first_app_none {A} (p : A -> bool) (f : A -> A) (l1 l2 : list A) :
  find p l1 = None -> update_first p f (l1 ++ l2) = (l1 ++ update_first p f l2)%list.
Proof.
  induction l1 as [|x l1 IH]; simpl; [auto|].
  destruct (p x); [discriminate|]. intros H. rewrite (IH H). reflexivity.
Qed.

Lemma update_first_none {A} (p : A -> bool) (f : A -> A) (l : list A) :
  find p l = None -> update_first p f l = l.
Proof.
  induction l as [|x l IH]; simpl; [auto|].
  destruct (p x); [discriminate|]. intros H. rewrite (IH H). reflexivity.
Qed.

(** Updating the first [p]-match [x], which is also the first [q]-match,
    makes a [q]-lookup return the updated document. *)
Lemma find_update_first {A} (p q : A -> bool) (f : A -> A) (l : list A) (x : A) :
  find p l = Some x -> find q l = Some x -> q (f x) = true ->
  find q (update_first p f l) = Some (f x).
Proof.
  induction l as [|y l IH]; simpl; [discriminate|].
  intros Hp Hq Hf. destruct (p y) eqn:Py.
  - injection Hp as <-. simpl. rewrite Hf. reflexivity.
  - destruct (q y) eqn:Qy.
    + injection Hq as <-. apply find_some in Hp as [_ Hp]. congruence.
    + simpl. rewrite Qy. apply IH; assumption.
Qed.

Section Extras.
Context {OL : OidLib} {OLw : @OidLaws OL} {JL : JwtLib} {JLw : @JwtLaws JL}
        {BL : BcryptLib} {BLw : @BcryptLaws BL} {ST : Settings}.

Lemma str_oid_inj (a b : ObjectId) : str_oid a = str_oid b -> a = b.
Proof.
  intros E. pose proof (parse_str_oid a) as Ha. rewrite E, parse_str_oid in Ha.
  congruence.
Qed.

Lemma oid_eqb_refl (a : ObjectId) : oid_eqb a a = true.
Proof. apply oid_eqb_spec. reflexivity. Qed.

Lemma find_user_by_email_last (us : list User) (u : User) (e : string) :
  email u = e -> find_user_by_email us e = None ->
  find_user_by_email (us ++ [u]) e = Some u.
Proof.
  unfold find_user_by_email. intros <- H. rewrite (find_app_none _ _ _ H).
  simpl. rewrite String.eqb_refl. reflexivity.
Qed.

Lemma bcrypt_verify_hash (salt secret : string) :
  bcrypt_secret_ok secret = true ->
  bcrypt_verify secret (bcrypt_digest salt secret) = Ok true.
Proof.
  intros H. rewrite (bcrypt_verify_accepted _ _ H).
  rewrite bcrypt_hash_wellformed, bcrypt_check_hash. reflexivity.
Qed.

(** X1: [seed_admin] is idempotent, and it changes nothing when the admin
    email is already used, whatever the role of the account holding it.
    (When [bcrypt.hash] raises, the first run already changed nothing.) *)
Theorem seed_admin_idempotent (d : Db) (e pw : string) (i1 i2 : ObjectId)
    (s1 s2 : string) (t1 t2 : Z) :
  seed_admin (seed_admin (Some d) e pw i1 s1 t1) e pw i2 s2 t2 =
    seed_admin (Some d) e pw i1 s1 t1 /\
  (forall u, find_user_by_email (user d) e = Some u ->
     seed_admin (Some d) e pw i1 s1 t1 = Some d).
Proof.
  split.
  - unfold seed_admin. destruct (find_user_by_email (user d) e) eqn:F.
    + rewrite F. reflexivity.
    + destruct (bcrypt_hash s1 pw) as [h|err] eqn:B.
      * cbn [user]. unfold find_user_by_email in *.
        rewrite (find_app_none _ _ _ F). simpl. rewrite String.eqb_refl.
        reflexivity.
      * rewrite F, (bcrypt_hash_error_salt s1 s2 pw err B). reflexivity.
  - intros u F. unfold seed_admin. rewrite F. reflexivity.
Qed.


(** X3: a student whose password passlib accepts can log in right after
    registering, with the same email and password, and the login token
    resolves to the new account. *)
Theorem register_student_then_login (d : Db) (rq : RegisterRequest)
    (new_id : ObjectId) (salt : string) (t0 t1 now : Z) :
  rq_role rq = student ->
  bcrypt_secret_ok (rq_password rq) = true ->
  find_user_by_email (user d) (rq_email rq) = None ->
  find_user_by_id (user d) new_id = None ->
  now < t1 + JWT_EXP_MIN * 60 ->
  exists tr d' u,
    register (Some d) rq new_id salt t0 = (Ok tr, Some d') /\
    approved u = true /\ _id u = new_id /\
    login (Some d') (mkLoginRequest (rq_email rq) (rq_password rq)) t1 =
      (Ok (token_response (create_token u t1)), Some d') /\
    get_current_user (Some d') (Some ("Bearer " ++ create_token u t1)) now = Ok u.
Proof.
  destruct rq as [n e pw r]; cbn [rq_role rq_email rq_password].
  intros -> Hp He Hi Hlive.
  unfold register, with_db. cbn [rq_role rq_email rq_password rq_name].
  rewrite (bcrypt_hash_ok salt pw Hp).
  cbn -[append create_token get_current_user login].
  rewrite He.
  set (u := {| _id := new_id; name := n; email := e;
               password_hash := Some (bcrypt_digest salt pw); role := student;
               approved := true; created_at := t0; updated_at := t0 |}).
  eexists _, _, u. split; [reflexivity|]. do 2 (split; [reflexivity|]).
  split.
  - unfold login, with_db, login_body. cbn [user lq_email lq_password].
    rewrite (find_user_by_email_last (user d) u e eq_refl He).
    unfold stored_hash, u. cbn [password_hash]. rewrite (bcrypt_verify_hash _ _ Hp).
    reflexivity.
  - rewrite get_current_user_create_token by exact Hlive.
    cbn [user]. rewrite (find_user_by_id_app_fresh (user d) u Hi). reflexivity.
Qed.

Lemma update_user_fresh_last (us : list User) (u0 : User) (i : ObjectId)
    (f : User -> User) :
  _id u0 = i -> find_user_by_id us i = None ->
  update_first (fun u => oid_eqb (_id u) i) f (us ++ [u0]) = (us ++ [f u0])%list.
Proof.
  intros <- H. rewrite update_first_app_none by exact H.
  simpl. rewrite oid_eqb_refl. reflexivity.
Qed.

Lemma find_user_by_id_last (us : list User) (u : User) (i : ObjectId) :
  _id u = i -> find_user_by_id us i = None ->
  find_user_by_id (us ++ [u]) i = Some u.
Proof. intros <- H. apply find_user_by_id_app_fresh, H. Qed.

Lemma require_role_admin (u : User) (roles : list string) :
  In (role_str (role u)) roles -> require_role u roles = Ok tt.
Proof. apply require_role_In. Qed.

(** X4: the teacher approval workflow.  A teacher who just registered
    (with a password passlib accepts) is refused at login with 403 "Account pending approval"; after an admin
    calls [approve_user] on the new id, the same credentials log in, and the
    token resolves to the approved account. *)
Theorem teacher_approval_flow (d : Db) (rq : RegisterRequest) (new_id : ObjectId)
    (salt : string) (adm : User) (t0 t1 t2 now : Z) :
  rq_role rq = teacher ->
  bcrypt_secret_ok (rq_password rq) = true ->
  find_user_by_email (user d) (rq_email rq) = None ->
  find_user_by_id (user d) new_id = None ->
  role adm = admin ->
  now < t2 + JWT_EXP_MIN * 60 ->
  exists tr d1 d2 u,
    register (Some d) rq new_id salt t0 = (Ok tr, Some d1) /\
    login (Some d1) (mkLoginRequest (rq_email rq) (rq_password rq)) t1 =
      (Error (HTTPException 403 "Account pending approval"), Some d1) /\
    approve_user (Some d1) (mkApproveUserRequest (str_oid new_id) true) adm t1 =
      (Ok (without_password_hash u), Some d2) /\
    _id u = new_id /\ role u = teacher /\ approved u = true /\
    login (Some d2) (mkLoginRequest (rq_email rq) (rq_password rq)) t2 =
      (Ok (token_response (create_token u t2)), Some d2) /\
    get_current_user (Some d2) (Some ("Bearer " ++ create_token u t2)) now = Ok u.
Proof.
  destruct rq as [n e pw r]; cbn [rq_role rq_email rq_password].
  intros -> Hp He Hi Hadm Hlive.
  pose (u0 := {| _id := new_id; name := n; email := e;
                 password_hash := Some (bcrypt_digest salt pw); role := teacher;
                 approved := false; created_at := t0; updated_at := t0 |}).
  pose (u := set_approved true t1 u0).
  pose (d1 := {| user := user d ++ [u0]; course := course d;
                 assignment := assignment d |}).
  pose (d2 := {| user := user d ++ [u]; course := course d;
                 assignment := assignment d |}).
  exists (token_response (create_token u0 t0)), d1, d2, u.
  split.
  { unfold register, with_db. cbn [rq_role rq_email rq_password rq_name].
    rewrite (bcrypt_hash_ok salt pw Hp). cbn -[create_token]. rewrite He.
    reflexivity. }
  split.
  { unfold login, with_db, login_body. cbn [lq_email lq_password].
    change (user d1) with (user d ++ [u0])%list.
    rewrite (find_user_by_email_last (user d) u0 e eq_refl He).
    unfold stored_hash, u0. cbn [password_hash].
    rewrite (bcrypt_verify_hash _ _ Hp). reflexivity. }
  split.
  { unfold approve_user, with_db.
    rewrite require_role_admin by (rewrite Hadm; simpl; auto).
    unfold oid. cbn [ap_user_id ap_approved]. rewrite parse_str_oid.
    change (user d1) with (user d ++ [u0])%list.
    rewrite (update_user_fresh_last (user d) u0 new_id _ eq_refl Hi).
    cbn [user].
    rewrite (find_user_by_id_last (user d) (set_approved true t1 u0) new_id
               eq_refl Hi).
    reflexivity. }
  do 3 (split; [reflexivity|]).
  split.
  { unfold login, with_db, login_body. cbn [lq_email lq_password].
    change (user d2) with (user d ++ [u])%list.
    rewrite (find_user_by_email_last (user d) u e eq_refl He).
    unfold stored_hash, u, u0. cbn [password_hash set_approved].
    rewrite (bcrypt_verify_hash _ _ Hp). reflexivity. }
  rewrite get_current_user_create_token by exact Hlive.
  change (user d2) with (user d ++ [u])%list.
  rewrite (find_user_by_id_app_fresh (user d) u Hi). reflexivity.
Qed.

(** X5: [approve_user] is admin-only: any other caller gets 403 "Forbidden"
    and the store is unchanged.  An admin naming a well-formed id that no
    account has gets 404 "User not found", the store again unchanged. *)
Theorem approve_user_guards (d : Db) (body : ApproveUserRequest) (current : User)
    (now : Z) :
  (role current <> admin ->
     approve_user (Some d) body current now =
       (Error (HTTPException 403 "Forbidden"), Some d)) /\
  (role current = admin -> forall i,
     parse_oid (ap_user_id body) = Some i -> find_user_by_id (user d) i = None ->
     approve_user (Some d) body current now =
       (Error (HTTPException 404 "User not found"), Some d)).
Proof.
  unfold approve_user, with_db. split.
  - intros Hr. unfold require_role. destruct (role current); simpl;
      [reflexivity|reflexivity|contradiction].
  - intros Hr i Hp Hn. rewrite require_role_admin by (rewrite Hr; simpl; auto).
    unfold oid. rewrite Hp.
    unfold find_user_by_id in *. rewrite (update_first_none _ _ _ Hn).
    cbn [user]. rewrite Hn.
    destruct d; reflexivity.
Qed.

(** X6: withdrawing approval ([approved = false]) from a non-admin
    account makes its next login fail with 403 "Account pending approval",
    but a token issued before keeps authenticating, now resolving to the
    unapproved account, until it expires. *)
Theorem revoke_blocks_login_not_tokens (d : Db) (u adm : User) (pw : string)
    (t0 t now : Z) :
  find_user_by_id (user d) (_id u) = Some u ->
  find_user_by_email (user d) (email u) = Some u ->
  role u <> admin ->
  bcrypt_verify pw (stored_hash u) = Ok true ->
  role adm = admin ->
  now < t0 + JWT_EXP_MIN * 60 ->
  exists d',
    approve_user (Some d) (mkApproveUserRequest (str_oid (_id u)) false) adm t =
      (Ok (without_password_hash (set_approved false t u)), Some d') /\
    login (Some d') (mkLoginRequest (email u) pw) now =
      (Error (HTTPException 403 "Account pending approval"), Some d') /\
    get_current_user (Some d') (Some ("Bearer " ++ create_token u t0)) now =
      Ok (set_approved false t u).
Proof.
  intros Hi He Hr Hv Ha Hlive.
  set (p := fun v => oid_eqb (_id v) (_id u)).
  assert (Fi : find p (update_first p (set_approved false t) (user d)) =
               Some (set_approved false t u)).
  { apply find_update_first; [exact Hi|exact Hi|]. apply oid_eqb_refl. }
  assert (Fe : find_user_by_email (update_first p (set_approved false t) (user d))
                 (email u) = Some (set_approved false t u)).
  { apply find_update_first; [exact Hi|exact He|]. apply String.eqb_refl. }
  eexists. split; [|split].
  - unfold approve_user, with_db.
    rewrite require_role_admin by (rewrite Ha; simpl; auto).
    unfold oid. cbn [ap_user_id ap_approved]. rewrite parse_str_oid.
    unfold find_user_by_id at 1. cbn [user]. fold p. rewrite Fi. reflexivity.
  - unfold login, with_db, login_body. cbn [user lq_email lq_password].
    rewrite Fe. unfold stored_hash in *. cbn [password_hash set_approved].
    rewrite Hv. simpl.
    destruct (role u); [reflexivity|reflexivity|contradiction].
  - rewrite get_current_user_create_token by exact Hlive.
    unfold find_user_by_id. cbn [user]. fold p. rewrite Fi. reflexivity.
Qed.

Lemma find_course_last (cs : list Course) (c : Course) (i : ObjectId) :
  course_oid c = i -> find_course_by_id cs i = None ->
  find_course_by_id (cs ++ [c]) i = Some c.
Proof.
  intros <- H. unfold find_course_by_id in *. rewrite (find_app_none _ _ _ H).
  simpl. rewrite oid_eqb_refl. reflexivity.
Qed.

Lemma update_course_fresh_last (cs : list Course) (c : Course) (i : ObjectId)
    (f : Course -> Course) :
  course_oid c = i -> find_course_by_id cs i = None ->
  update_first (fun c' => oid_eqb (course_oid c') i) f (cs ++ [c]) =
    (cs ++ [f c])%list.
Proof.
  intros <- H. rewrite update_first_app_none by exact H.
  simpl. rewrite oid_eqb_refl. reflexivity.
Qed.

(** X7: a course an admin creates is recorded as owned by the admin's own
    id (the request body carries no [teacher_id]).  A teacher is therefore
    refused 403 "Not your course" when adding an assignment to it, until an
    admin runs [assign_teacher] for that teacher; then the same
    [create_assignment] call succeeds. *)
Theorem admin_course_handover (d : Db) (adm t : User) (cbody : CourseCreate)
    (abody : AssignmentCreate) (cid new_id : ObjectId) (now : Z) :
  role adm = admin -> role t = teacher -> _id t <> _id adm ->
  find_user_by_id (user d) (_id t) = Some t ->
  find_course_by_id (course d) cid = None ->
  ac_course_id abody = str_oid cid ->
  exists c d1 d2,
    create_course (Some d) cbody adm cid now = (Ok c, Some d1) /\
    teacher_id c = Some (str_oid (_id adm)) /\
    create_assignment (Some d1) abody t new_id now =
      (Error (HTTPException 403 "Not your course"), Some d1) /\
    assign_teacher (Some d1) (mkAssignTeacherRequest (str_oid cid) (str_oid (_id t)))
      adm = (Ok (set_teacher_id (str_oid (_id t)) c), Some d2) /\
    exists a, create_assignment (Some d2) abody t new_id now =
      (Ok a, Some {| user := user d2; course := course d2;
                     assignment := assignment d2 ++ [a] |}).
Proof.
  intros Ha Ht Hne Hti Hc Hab.
  pose (c := {| course_oid := cid; title := cc_title cbody;
                description := cc_description cbody; subject := cc_subject cbody;
                teacher_id := Some (str_oid (_id adm)); course_created_at := now |}).
  pose (c' := set_teacher_id (str_oid (_id t)) c).
  pose (d1 := {| user := user d; course := course d ++ [c];
                 assignment := assignment d |}).
  pose (d2 := {| user := user d; course := course d ++ [c'];
                 assignment := assignment d |}).
  assert (Rt : require_role t ["teacher"; "admin"] = Ok tt)
    by (apply require_role_admin; rewrite Ht; simpl; auto).
  assert (Oc : oid (ac_course_id abody) = Ok cid)
    by (unfold oid; rewrite Hab, parse_str_oid; reflexivity).
  exists c, d1, d2. split.
  { unfold create_course, with_db.
    rewrite require_role_admin by (rewrite Ha; simpl; auto).
    unfold c, d1. rewrite Ha. reflexivity. }
  split; [reflexivity|]. split.
  { unfold create_assignment, with_db, create_assignment_checks.
    rewrite Rt. simpl bind. rewrite Oc. simpl bind.
    change (course d1) with (course d ++ [c])%list.
    rewrite (find_course_last (course d) c cid eq_refl Hc).
    rewrite Ht. unfold teacher_id_differs, c. cbn [teacher_id].
    destruct (String.eqb_spec (str_oid (_id adm)) (str_oid (_id t))) as [E|E].
    - apply str_oid_inj in E. congruence.
    - reflexivity. }
  split.
  { unfold assign_teacher, with_db.
    rewrite require_role_admin by (rewrite Ha; simpl; auto).
    unfold oid. cbn [at_teacher_id at_course_id]. rewrite !parse_str_oid.
    change (user d1) with (user d). rewrite Hti, Ht. simpl String.eqb.
    change (course d1) with (course d ++ [c])%list.
    rewrite (update_course_fresh_last (course d) c cid _ eq_refl Hc).
    cbn [course]. fold c'.
    rewrite (find_course_last (course d) c' cid eq_refl Hc). reflexivity. }
  eexists. unfold create_assignment, with_db, create_assignment_checks.
  rewrite Rt. simpl bind. rewrite Oc. simpl bind.
  change (course d2) with (course d ++ [c'])%list.
  rewrite (find_course_last (course d) c' cid eq_refl Hc).
  rewrite Ht. unfold teacher_id_differs, c'. cbn [teacher_id set_teacher_id].
  destruct (String.eqb_spec (str_oid (_id t)) (str_oid (_id t))) as [_|E];
    [reflexivity|congruence].
Qed.

(** X8: [assign_teacher] is admin-only (anyone else: 403 "Forbidden"), and
    an admin naming a well-formed id that is not a teacher's account (no
    account, or a student or admin) gets 400 "Invalid teacher".  In both
    cases no course is modified. *)
Theorem assign_teacher_guards (d : Db) (body : AssignTeacherRequest)
    (current : User) :
  (role current <> admin ->
     assign_teacher (Some d) body current =
       (Error (HTTPException 403 "Forbidden"), Some d)) /\
  (role current = admin -> forall i,
     parse_oid (at_teacher_id body) = Some i ->
     (forall t, find_user_by_id (user d) i = Some t -> role t <> teacher) ->
     assign_teacher (Some d) body current =
       (Error (HTTPException 400 "Invalid teacher"), Some d)).
Proof.
  unfold assign_teacher, with_db. split.
  - intros Hr. unfold require_role. destruct (role current); simpl;
      [reflexivity|reflexivity|contradiction].
  - intros Hr i Hp Hnt. rewrite require_role_admin by (rewrite Hr; simpl; auto).
    unfold oid. rewrite Hp.
    destruct (find_user_by_id (user d) i) as [t|] eqn:F; [|reflexivity].
    specialize (Hnt t eq_refl).
    destruct (role t); [reflexivity|contradiction|reflexivity].
Qed.

(** X9: with no database, every protected endpoint answers 401 before its
    handler runs: [get_current_user] turns the missing database into
    "Invalid token" (or reports the header or the expiry), so the handlers'
    own 500 "Database unavailable" is never reached. *)
Theorem endpoint_without_db {A} (authorization : option string) (now : Z)
    (handler : User -> Result A * option Db) :
  exists detail,
    endpoint None authorization now handler =
      (Error (HTTPException 401 detail), None).
Proof.
  unfold endpoint, get_current_user.
  destruct authorization as [[|c h]|]; try (eexists; reflexivity).
  unfold get_current_user_try.
  destruct (split_on " " (String c h)) as [|scheme [|token [|x r]]];
    try (eexists; reflexivity).
  destruct (negb _); [eexists; reflexivity|].
  destruct (jwt_decode token SECRET_KEY now) as [p| |]; try (eexists; reflexivity).
  destruct (String.eqb (sub p) ""); eexists; reflexivity.
Qed.

End Extras.

(** * Properties of enrollments, submissions, announcements and materials *)

Lemma In_insert_desc {A} (key : A -> Z) (x y : A) (l : list A) :
  In y (insert_desc key x l) <-> x = y \/ In y l.
Proof.
  induction l as [|z l IH]; simpl; [tauto|].
  destruct (Z.ltb (key z) (key x)); simpl; [tauto|]. rewrite IH. tauto.
Qed.

Lemma In_sort_desc {A} (key : A -> Z) (y : A) (l : list A) :
  In y (sort_desc key l) <-> In y l.
Proof.
  induction l as [|x l IH]; simpl; [tauto|]. rewrite In_insert_desc, IH. tauto.
Qed.

Lemma find_none_filter {A} (q : A -> bool) (l : list A) :
  find q l = None -> filter q l = [].
Proof.
  induction l as [|x l IH]; simpl; [auto|]. destruct (q x); [discriminate|auto].
Qed.

Lemma filter_length_update_first {A} (p q : A -> bool) (f : A -> A) (l : list A) :
  (forall x, find p l = Some x -> q (f x) = q x) ->
  length (filter q (update_first p f l)) = length (filter q l).
Proof.
  induction l as [|y l IH]; simpl; [auto|]. intros H.
  destruct (p y).
  - simpl. rewrite (H y eq_refl). destruct (q y); reflexivity.
  - simpl. destruct (q y); simpl; rewrite (IH H); reflexivity.
Qed.

Lemma map_update_first {A B} (k : A -> B) (p : A -> bool) (f : A -> A) (l : list A) :
  (forall x, k (f x) = k x) -> map k (update_first p f l) = map k l.
Proof.
  intros H. induction l as [|y l IH]; simpl; [auto|].
  destruct (p y); simpl; rewrite ?H, ?IH; reflexivity.
Qed.

Lemma NoDup_snoc {A} (l : list A) (x : A) :
  NoDup l -> ~ In x l -> NoDup (l ++ [x]).
Proof.
  induction l as [|y l IH]; simpl; intros H N.
  - constructor; [auto|constructor].
  - inversion H as [|? ? Hy Hl]; subst. constructor.
    + rewrite in_app_iff. simpl. intros [E|[E|[]]]; [contradiction|]. subst. tauto.
    + apply IH; tauto.
Qed.

Section Campus_proofs.
Context {OL : OidLib} {OLw : @OidLaws OL} {JL : JwtLib} {BL : BcryptLib}
        {ST : Settings} {Grade : Type}.

Lemma find_submission_unique (l : list (@Submission OL Grade)) (x : Submission) :
  NoDup (map submission_oid l) -> In x l ->
  find (fun y => oid_eqb (submission_oid y) (submission_oid x)) l = Some x.
Proof.
  induction l as [|y l IH]; simpl; [tauto|]. intros H Hin.
  inversion H as [|? ? Hy Hl]; subst.
  destruct (oid_eqb (submission_oid y) (submission_oid x)) eqn:E.
  - apply oid_eqb_spec in E. destruct Hin as [->|Hin]; [reflexivity|].
    exfalso. apply Hy. rewrite E. apply in_map, Hin.
  - destruct Hin as [->|Hin]; [rewrite oid_eqb_refl in E; discriminate|].
    apply IH; assumption.
Qed.

(** X10: enrolling is idempotent.  Once [enroll_course] has succeeded, the
    same student enrolling in the same course again gets the same
    enrollment back and the store is left as it is (provided every stored
    enrollment has status "enrolled", the only status the code writes). *)
Theorem enroll_course_idempotent (s s1 : @Store OL Grade) (body : EnrollRequest)
    (current : User) (e : Enrollment) (i1 i2 : ObjectId) (t1 t2 : Z) :
  Forall (fun e => status e = "enrolled") (enrollment s) ->
  enroll_course (Some s) body current i1 t1 = (Ok e, Some s1) ->
  enroll_course (Some s1) body current i2 t2 = (Ok e, Some s1).
Proof.
  intros Hst H. unfold enroll_course, with_store in *. cbv zeta in *.
  destruct (require_role current ["student"]) as [[]|er]; [|discriminate].
  destruct (oid (er_course_id body)) as [cid|er]; [|discriminate].
  destruct (find_course_by_id (course (core s)) cid) as [c|] eqn:Fc; [|discriminate].
  set (q := fun e => String.eqb (en_course_id e) (er_course_id body)
                     && String.eqb (en_student_id e) (str_oid (_id current))) in *.
  destruct (find q (enrollment s)) as [e0|] eqn:Fe.
  - pose proof (find_some _ _ Fe) as [Hin _].
    rewrite Forall_forall in Hst. rewrite (Hst e0 Hin), String.eqb_refl in H.
    injection H as <- <-. rewrite Fc, Fe, (Hst e0 Hin), String.eqb_refl.
    reflexivity.
  - injection H as <- <-. cbn [core enrollment set_enrollment]. rewrite Fc.
    rewrite (find_app_none _ _ _ Fe). unfold q. cbn [find en_course_id en_student_id status].
    rewrite !String.eqb_refl. reflexivity.
Qed.

Lemma length_update_first {A} (p : A -> bool) (f : A -> A) (l : list A) :
  length (update_first p f l) = length l.
Proof. induction l as [|x l IH]; simpl; [auto|]. destruct (p x); simpl; auto. Qed.

(** X11: a student can only submit to an assignment of a course they are
    enrolled in: with no "enrolled" enrollment of theirs for the
    assignment's course, [submit_assignment] answers 403 "Not enrolled in
    course" and stores nothing. *)
Theorem submit_requires_enrollment (s : @Store OL Grade) (body : SubmissionCreate)
    (current : User) (new_id : ObjectId) (now : Z) (a : Assignment) :
  role current = student ->
  parse_oid (sc_assignment_id body) = Some (assignment_oid a) ->
  find_assignment_by_id (assignment (core s)) (assignment_oid a) = Some a ->
  (forall e, In e (enrollment s) -> en_course_id e = course_id a ->
     en_student_id e = str_oid (_id current) -> status e <> "enrolled") ->
  submit_assignment (Some s) body current new_id now =
    (Error (HTTPException 403 "Not enrolled in course"), Some s).
Proof.
  intros Hr Hp Ha Hne. unfold submit_assignment, with_store, oid. cbv zeta.
  rewrite (proj2 (require_role_In _ _)) by (rewrite Hr; simpl; auto).
  rewrite Hp, Ha.
  destruct (find _ (enrollment s)) as [e|] eqn:Fe; [|reflexivity].
  apply find_some in Fe as [Hin Hq].
  apply andb_prop in Hq as [Hq Hs]. apply andb_prop in Hq as [Hc Hst].
  apply String.eqb_eq in Hc, Hst, Hs.
  exfalso. exact (Hne e Hin Hc Hst Hs).
Qed.

(** X12: [submit_assignment] keeps at most one submission per assignment
    and student: a second submission rewrites the first in place instead
    of adding a document.  The invariant also keeps submission ids
    distinct, given a fresh id for an inserted document. *)
Theorem submit_keeps_one_submission (s s' : @Store OL Grade) (body : SubmissionCreate)
    (current : User) (new_id : ObjectId) (now : Z) (r : Result (option Submission)) :
  submissions_ok (submission s) ->
  ~ In new_id (map submission_oid (submission s)) ->
  submit_assignment (Some s) body current new_id now = (r, Some s') ->
  submissions_ok (submission s').
Proof.
  intros [Hnd Hpc] Hfresh H. unfold submit_assignment, with_store in H. cbv zeta in H.
  destruct (require_role current ["student"]) as [[]|er];
    [|injection H as _ <-; split; assumption].
  destruct (oid (sc_assignment_id body)) as [aid|er];
    [|injection H as _ <-; split; assumption].
  destruct (find_assignment_by_id (assignment (core s)) aid) as [a|];
    [|injection H as _ <-; split; assumption].
  destruct (find _ (enrollment s)) as [e|];
    [|injection H as _ <-; split; assumption].
  set (sid := str_oid (_id current)) in *.
  set (q := fun x => String.eqb (sb_assignment_id x) (sc_assignment_id body)
                     && String.eqb (sb_student_id x) sid) in *.
  destruct (find q (submission s)) as [ex|] eqn:Fx.
  - injection H as _ <-. cbn [submission set_submissions].
    pose proof (find_some _ _ Fx) as [Hin Hqx].
    split.
    + rewrite map_update_first by reflexivity. exact Hnd.
    + intros aid' sid'. unfold pair_count.
      rewrite filter_length_update_first; [apply Hpc|].
      intros x Fy. rewrite (find_submission_unique _ _ Hnd Hin) in Fy.
      injection Fy as <-. unfold q in Hqx.
      apply andb_prop in Hqx as [E1 E2]. apply String.eqb_eq in E1, E2.
      cbn [resubmit sb_assignment_id sb_student_id]. rewrite E1, E2. reflexivity.
  - injection H as _ <-. cbn [submission set_submissions].
    split.
    + rewrite map_app. apply NoDup_snoc; assumption.
    + intros aid' sid'. unfold pair_count. rewrite filter_app, length_app.
      cbn [filter sb_assignment_id sb_student_id].
      destruct (String.eqb (sc_assignment_id body) aid' && String.eqb sid sid') eqn:E.
      * apply andb_prop in E as [E1 E2]. apply String.eqb_eq in E1, E2. subst aid' sid'.
        change (fun x => String.eqb (sb_assignment_id x) (sc_assignment_id body)
                         && String.eqb (sb_student_id x) sid) with q.
        rewrite (find_none_filter _ _ Fx). simpl. lia.
      * rewrite Nat.add_0_r. apply Hpc.
Qed.

(** X13: resubmitting rewrites the student's earlier submission in place:
    the response is that document with the new content and file, and with
    [created_at] reset to the time of the resubmission, while its id and any
    grade and feedback already given are kept.  No document is added. *)
Theorem resubmit_keeps_grade (s s' : @Store OL Grade) (body : SubmissionCreate)
    (current : User) (new_id : ObjectId) (now : Z) (ex : Submission)
    (r : Result (option Submission)) :
  NoDup (map submission_oid (submission s)) ->
  find (fun x => String.eqb (sb_assignment_id x) (sc_assignment_id body)
                 && String.eqb (sb_student_id x) (str_oid (_id current)))
       (submission s) = Some ex ->
  submit_assignment (Some s) body current new_id now = (r, Some s') ->
  r = Error (HTTPException 403 "Not enrolled in course") \/
  r = Error (HTTPException 404 "Assignment not found") \/
  r = Error (HTTPException 400 "Invalid id format") \/
  r = Error (HTTPException 403 "Forbidden") \/
  exists x, r = Ok (Some x) /\
    submission_oid x = submission_oid ex /\ graded x = graded ex /\
    content x = sc_content body /\ sb_file_url x = sc_file_url body /\
    sb_created_at x = now /\ length (submission s') = length (submission s).
Proof.
  intros Hnd Fx H. unfold submit_assignment, with_store in H. cbv zeta in H.
  unfold require_role in H.
  destruct (existsb _ ["student"]);
    [|injection H as <- _; do 3 right; left; reflexivity].
  unfold oid in H. destruct (parse_oid (sc_assignment_id body)) as [aid|];
    [|injection H as <- _; do 2 right; left; reflexivity].
  destruct (find_assignment_by_id (assignment (core s)) aid) as [a|];
    [|injection H as <- _; right; left; reflexivity].
  destruct (find _ (enrollment s)) as [e|];
    [|injection H as <- _; left; reflexivity].
  rewrite Fx in H. injection H as <- <-. do 4 right.
  pose proof (find_some _ _ Fx) as [Hin _].
  eexists. split.
  - cbn [submission set_submissions]. unfold find_submission_by_id.
    rewrite (find_update_first _ _ _ _ ex (find_submission_unique _ _ Hnd Hin)
               (find_submission_unique _ _ Hnd Hin)); [reflexivity|].
    cbn [resubmit submission_oid]. apply oid_eqb_refl.
  - cbn [resubmit submission_oid graded content sb_file_url sb_created_at
         submission set_submissions].
    rewrite length_update_first. repeat split.
Qed.

Lemma find_some_of_In {A} (q : A -> bool) (l : list A) (x : A) :
  In x l -> q x = true -> exists y, find q l = Some y.
Proof.
  intros Hin Hq. destruct (find q l) as [y|] eqn:F; [eauto|].
  rewrite (find_none _ _ F x Hin) in Hq. discriminate.
Qed.

Lemma In_filter_iff {A} (q : A -> bool) (l : list A) (x : A) :
  In x (filter q l) <-> In x l /\ q x = true.
Proof. apply filter_In. Qed.

(** X14: who may grade.  For a submission whose assignment and course
    exist, a student is refused 403 "Forbidden", a teacher who is not the
    course's [teacher_id] 403 "Not your course", both with no change.  An
    admin, or the course's teacher, gets the submission back with the grade
    and feedback set; no document is added. *)
Theorem grade_submission_access (s : @Store OL Grade) (body : GradeRequest)
    (current : User) (now : Z) (sub : Submission) (a : Assignment) (c : Course) :
  parse_oid (gr_submission_id body) = Some (submission_oid sub) ->
  find_submission_by_id (submission s) (submission_oid sub) = Some sub ->
  parse_oid (sb_assignment_id sub) = Some (assignment_oid a) ->
  find_assignment_by_id (assignment (core s)) (assignment_oid a) = Some a ->
  parse_oid (course_id a) = Some (course_oid c) ->
  find_course_by_id (course (core s)) (course_oid c) = Some c ->
  (role current = student ->
     grade_submission (Some s) body current now =
       (Error (HTTPException 403 "Forbidden"), Some s)) /\
  (role current = teacher -> teacher_id c <> Some (str_oid (_id current)) ->
     grade_submission (Some s) body current now =
       (Error (HTTPException 403 "Not your course"), Some s)) /\
  (role current = admin \/
     role current = teacher /\ teacher_id c = Some (str_oid (_id current)) ->
   exists s', grade_submission (Some s) body current now =
       (Ok (Some (set_grade body now sub)), Some s') /\
     graded (set_grade body now sub) = Some (gr_grade body, gr_feedback body) /\
     length (submission s') = length (submission s)).
Proof.
  intros P1 F1 P2 F2 P3 F3.
  assert (Hok : role current <> student ->
            grade_checks s body current =
              let* _ := course_guard (Some c) current in Ok sub).
  { intros Hr. unfold grade_checks, oid.
    rewrite (proj2 (require_role_In _ _))
      by (destruct (role current); simpl; auto; contradiction).
    cbn [bind]. rewrite P1. cbn [bind]. rewrite F1. rewrite P2. cbn [bind].
    rewrite F2, P3. cbn [bind]. rewrite F3. reflexivity. }
  split; [|split].
  - intros Hr. unfold grade_submission, grade_checks, with_store, require_role.
    rewrite Hr. reflexivity.
  - intros Hr Hne. unfold grade_submission, with_store.
    rewrite Hok by congruence. unfold course_guard, teacher_id_differs. rewrite Hr.
    simpl String.eqb. cbv iota.
    destruct (teacher_id c) as [t|]; [|reflexivity].
    destruct (String.eqb_spec t (str_oid (_id current))) as [->|E]; [congruence|].
    reflexivity.
  - intros Hr. unfold grade_submission, with_store.
    rewrite Hok by (destruct Hr as [->|[-> _]]; discriminate).
    assert (Hg : course_guard (Some c) current = Ok tt).
    { unfold course_guard, teacher_id_differs.
      destruct Hr as [->|[-> ->]]; [reflexivity|].
      simpl String.eqb. cbv iota. rewrite String.eqb_refl. reflexivity. }
    rewrite Hg. simpl bind. eexists. split; [|split; [reflexivity|]].
    + cbn [submission set_submissions]. unfold find_submission_by_id in *.
      rewrite (find_update_first _ _ _ _ sub F1 F1); [reflexivity|].
      cbn [set_grade submission_oid]. apply oid_eqb_refl.
    + cbn [submission set_submissions]. apply length_update_first.
Qed.

(** X15: who sees an announcement.  [list_announcements] lists, from the
    stored announcements, for a student those addressed to all and the
    course announcements whose [course_id] is a course the student has an
    "enrolled" enrollment in; for a teacher every announcement, course
    announcements of other teachers' courses included; for an admin every
    announcement.  It changes nothing. *)
Theorem list_announcements_visibility (s : @Store OL Grade) (current : User) :
  exists xs, list_announcements (Some s) current = (Ok xs, Some s) /\
  forall an, In an xs <-> In an (announcement s) /\
    match role current with
    | student =>
        audience an = aud_all \/
        audience an = aud_course /\
        exists e, an_course_id an = Some (en_course_id e) /\ In e (enrollment s) /\
          en_student_id e = str_oid (_id current) /\ status e = "enrolled"
    | teacher | admin => True
    end.
Proof.
  eexists. split; [reflexivity|]. intros an.
  rewrite In_sort_desc, In_filter_iff. apply and_iff_compat_l.
  destruct (role current).
  - cbv beta zeta. destruct (audience an); simpl.
    + split; auto.
    + destruct (an_course_id an) as [cid|] eqn:Ec.
      * rewrite existsb_exists. split.
        -- intros (c' & Hc' & E). apply String.eqb_eq in E. subst c'.
           apply in_map_iff in Hc' as (e & <- & He).
           unfold enrolled_of in He. apply In_filter_iff in He as [He Hq].
           apply andb_prop in Hq as [H1 H2]. apply String.eqb_eq in H1, H2.
           right. split; [reflexivity|]. exists e. auto.
        -- intros [D|[_ (e & E & He & H1 & H2)]]; [discriminate|].
           injection E as E. rewrite E. exists (en_course_id e). split; [|apply String.eqb_refl].
           apply in_map. unfold enrolled_of. apply In_filter_iff. split; [exact He|].
           rewrite H1, H2, !String.eqb_refl. reflexivity.
      * split; [discriminate|]. intros [D|[_ (e & E & _)]]; discriminate.
  - cbv beta. destruct (audience an); simpl; tauto.
  - simpl. tauto.
Qed.

(** X16: who sees a material.  A student sees the materials of the courses
    named by their "enrolled" enrollments, and none at all when they have
    no such enrollment; a teacher or an admin sees every material, of every
    course.  [list_materials] changes nothing. *)
Theorem list_materials_visibility (s : @Store OL Grade) (current : User) :
  exists xs, list_materials (Some s) current = (Ok xs, Some s) /\
  forall m, In m xs <-> In m (material s) /\
    match role current with
    | student => exists e, In e (enrollment s) /\ en_course_id e = mt_course_id m /\
                   en_student_id e = str_oid (_id current) /\ status e = "enrolled"
    | teacher | admin => True
    end.
Proof.
  eexists. split; [reflexivity|]. intros m.
  rewrite In_sort_desc, In_filter_iff. apply and_iff_compat_l.
  assert (Hin : forall cid, In cid (map en_course_id
                   (enrolled_of (enrollment s) (str_oid (_id current)))) <->
                 exists e, In e (enrollment s) /\ en_course_id e = cid /\
                   en_student_id e = str_oid (_id current) /\ status e = "enrolled").
  { intros cid. rewrite in_map_iff. split.
    - intros (e & <- & He). unfold enrolled_of in He.
      apply In_filter_iff in He as [He Hq].
      apply andb_prop in Hq as [H1 H2]. apply String.eqb_eq in H1, H2. eauto.
    - intros (e & He & <- & H1 & H2). exists e. split; [reflexivity|].
      unfold enrolled_of. apply In_filter_iff. split; [exact He|].
      rewrite H1, H2, !String.eqb_refl. reflexivity. }
  destruct (role current); [|simpl; tauto|simpl; tauto].
  rewrite <- Hin.
  destruct (map en_course_id _) as [|c0 cs].
  - simpl. split; [discriminate|tauto].
  - cbv beta zeta iota. apply existsb_eqb_In.
Qed.

Lemma length_insert_desc {A} (key : A -> Z) (x : A) (l : list A) :
  length (insert_desc key x l) = S (length l).
Proof.
  induction l as [|y l IH]; simpl; [auto|].
  destruct (Z.ltb (key y) (key x)); simpl; auto.
Qed.

Lemma length_sort_desc {A} (key : A -> Z) (l : list A) :
  length (sort_desc key l) = length l.
Proof.
  induction l as [|x l IH]; simpl; [auto|]. rewrite length_insert_desc, IH. reflexivity.
Qed.

Lemma role_not_student_In (u : User) :
  role u <> student -> In (role_str (role u)) ["teacher"; "admin"].
Proof. intros H. destruct (role u); simpl; auto. Qed.

(** What a successful [enroll_course] leaves behind: the returned
    enrollment is stored, is "enrolled", and names the requested course and
    the student; the other collections are untouched. *)
Lemma enroll_course_ok (s s1 : @Store OL Grade) (body : EnrollRequest)
    (current : User) (e : Enrollment) (i : ObjectId) (t : Z) :
  enroll_course (Some s) body current i t = (Ok e, Some s1) ->
  core s1 = core s /\ In e (enrollment s1) /\ en_course_id e = er_course_id body /\
  en_student_id e = str_oid (_id current) /\ status e = "enrolled" /\
  (exists cid c, parse_oid (er_course_id body) = Some cid /\
     find_course_by_id (course (core s)) cid = Some c) /\
  require_role current ["student"] = Ok tt /\
  (enrollment s1 = enrollment s \/ enrollment s1 = (enrollment s ++ [e])%list).
Proof.
  intros H. unfold enroll_course, with_store, oid in H. cbv zeta in H.
  destruct (require_role current ["student"]) as [[]|er]; [|discriminate].
  destruct (parse_oid (er_course_id body)) as [cid|] eqn:Pc; [|discriminate].
  destruct (find_course_by_id (course (core s)) cid) as [c|] eqn:Fc; [|discriminate].
  destruct (find _ (enrollment s)) as [e0|] eqn:Fe.
  - destruct (String.eqb (status e0) "enrolled") eqn:St.
    + injection H as <- <-. apply find_some in Fe as [Hin Hq].
      apply andb_prop in Hq as [H1 H2]. apply String.eqb_eq in H1, H2, St.
      repeat split; eauto.
    + injection H as <- <-. cbn [core enrollment set_enrollment].
      repeat split; eauto. apply in_or_app. simpl. auto.
  - injection H as <- <-. cbn [core enrollment set_enrollment].
    repeat split; eauto. apply in_or_app. simpl. auto.
Qed.

(** X17: the checks of [create_announcement] (for a teacher or an admin).
    A course announcement without a [course_id] (missing or empty) is
    refused 400 "course_id required for course audience".  An announcement
    to all is stored with no course check at all: whatever [course_id] the
    body carries is kept as given, and the author is the caller. *)
Theorem create_announcement_checks (s : @Store OL Grade) (body : AnnouncementCreate)
    (current : User) (new_id : ObjectId) (now : Z) :
  role current <> student ->
  (anc_audience body = aud_course ->
   anc_course_id body = None \/ anc_course_id body = Some "" ->
   create_announcement (Some s) body current new_id now =
     (Error (HTTPException 400 "course_id required for course audience"), Some s)) /\
  (anc_audience body = aud_all ->
   exists an, create_announcement (Some s) body current new_id now =
       (Ok an, Some (set_announcements s (announcement s ++ [an]))) /\
     an_course_id an = anc_course_id body /\ author_id an = str_oid (_id current) /\
     audience an = aud_all).
Proof.
  intros Hr. unfold create_announcement, with_store.
  rewrite (proj2 (require_role_In _ _)) by (apply role_not_student_In, Hr).
  cbn [bind]. split.
  - intros -> [->| ->]; reflexivity.
  - intros ->. eexists. split; [reflexivity|]. cbn. auto.
Qed.

(** X18: the profile endpoints and the password hash.  [me] never returns
    the stored hash.  [update_me] with an empty update (no [name], [bio]
    or [avatar_url]) returns the caller's record as loaded, hash included;
    with any field set it returns the updated record without the hash. *)
Theorem profile_password_hash (d : Db) (upd : ProfileUpdate) (current u0 : User)
    (now : Z) :
  find_user_by_id (user d) (_id current) = Some u0 ->
  (forall u, me current = Ok u -> password_hash u = None) /\
  exists u d', update_me (Some d) upd current now = (Ok u, Some d') /\
    password_hash u = (if profile_empty upd then password_hash current else None).
Proof.
  intros F. split.
  - intros u E. injection E as <-. reflexivity.
  - unfold update_me, with_db. destruct (profile_empty upd).
    + exists current, d. split; reflexivity.
    + cbn [user]. unfold find_user_by_id in *.
      rewrite (find_update_first _ _ _ _ u0 F F).
      * eexists _, _. split; reflexivity.
      * apply find_some in F as [_ Hq]. exact Hq.
Qed.

(** X19: [list_users] is admin-only (anyone else: 403 "Forbidden"); for an
    admin it lists every account, one entry per stored account, and no
    entry carries a password hash. *)
Theorem list_users_hides_hashes (d : Db) (current : User) :
  (role current <> admin ->
     list_users (Some d) current = (Error (HTTPException 403 "Forbidden"), Some d)) /\
  (role current = admin ->
   exists xs, list_users (Some d) current = (Ok xs, Some d) /\
     (forall u, In u xs -> password_hash u = None) /\
     (forall u, In u (user d) -> In (without_password_hash u) xs) /\
     length xs = length (user d)).
Proof.
  unfold list_users, with_db. split.
  - intros Hr. unfold require_role.
    destruct (role current); [reflexivity|reflexivity|contradiction].
  - intros Hr. rewrite (proj2 (require_role_In _ _)) by (rewrite Hr; simpl; auto).
    eexists. split; [reflexivity|]. split; [|split].
    + intros u Hu. apply in_map_iff in Hu as (v & <- & _). reflexivity.
    + intros u Hu. apply in_map, In_sort_desc, Hu.
    + rewrite length_map, length_sort_desc. reflexivity.
Qed.

(** X20: enrolling opens a course's assignments.  After a student enrolls
    in the course an assignment belongs to (by the assignment's
    [course_id]), [student_assignments] lists that assignment, and
    submitting to it succeeds (a first submission or a resubmission). *)
Theorem enroll_then_submit (s s1 : @Store OL Grade) (current : User) (a : Assignment)
    (e : Enrollment) (i1 i2 : ObjectId) (t1 t2 : Z) (cnt file : option string) :
  role current = student ->
  find_assignment_by_id (assignment (core s)) (assignment_oid a) = Some a ->
  enroll_course (Some s) (mkEnrollRequest (course_id a)) current i1 t1 = (Ok e, Some s1) ->
  (exists xs, student_assignments (Some s1) current = (Ok xs, Some s1) /\ In a xs) /\
  exists r s2, submit_assignment (Some s1)
      (mkSubmissionCreate (str_oid (assignment_oid a)) cnt file) current i2 t2 =
    (Ok r, Some s2).
Proof.
  intros Hr Fa H.
  apply enroll_course_ok in H as (Hc & Hin & E1 & E2 & E3 & _).
  cbn [er_course_id] in E1.
  assert (Rs : require_role current ["student"] = Ok tt)
    by (apply require_role_In; rewrite Hr; simpl; auto).
  split.
  - unfold student_assignments, with_store. rewrite Rs.
    assert (Hm : In (course_id a) (map en_course_id
                   (enrolled_of (enrollment s1) (str_oid (_id current))))).
    { rewrite <- E1. apply in_map. unfold enrolled_of. apply In_filter_iff.
      split; [exact Hin|]. rewrite E2, E3, !String.eqb_refl. reflexivity. }
    destruct (map en_course_id _) as [|c0 cs] eqn:M; [contradiction|].
    eexists. split; [reflexivity|].
    apply In_sort_desc, In_filter_iff. split.
    + rewrite Hc. apply find_some in Fa as [Ha _]. exact Ha.
    + apply existsb_eqb_In. exact Hm.
  - unfold submit_assignment, with_store, oid. cbv zeta. rewrite Rs.
    cbn [sc_assignment_id]. rewrite parse_str_oid, Hc, Fa.
    destruct (find_some_of_In
                (fun e => String.eqb (en_course_id e) (course_id a)
                          && String.eqb (en_student_id e) (str_oid (_id current))
                          && String.eqb (status e) "enrolled")
                (enrollment s1) e Hin) as [e' Fe].
    { rewrite E1, E2, E3, !String.eqb_refl. reflexivity. }
    rewrite Fe. destruct (find _ (submission s1)); eexists _, _; reflexivity.
Qed.

(** X21: [my_courses] is refused to students (403 "Forbidden"); a teacher
    gets exactly the courses whose [teacher_id] is their id, an admin every
    course.  It changes nothing. *)
Theorem my_courses_scope (d : Db) (current : User) :
  (role current = student ->
     my_courses (Some d) current = (Error (HTTPException 403 "Forbidden"), Some d)) /\
  (role current <> student ->
   exists xs, my_courses (Some d) current = (Ok xs, Some d) /\
     forall c, In c xs <-> In c (course d) /\
       (role current = admin \/ teacher_id c = Some (str_oid (_id current)))).
Proof.
  unfold my_courses, with_db. split.
  - intros Hr. unfold require_role. rewrite Hr. reflexivity.
  - intros Hr. rewrite (proj2 (require_role_In _ _)) by (apply role_not_student_In, Hr).
    eexists. split; [reflexivity|]. intros c.
    rewrite In_sort_desc, In_filter_iff. apply and_iff_compat_l.
    destruct (role current); [contradiction| |]; simpl.
    + destruct (teacher_id c) as [t|].
      * rewrite String.eqb_eq. split; [intros ->; auto|].
        intros [D|E]; [discriminate|congruence].
      * split; [discriminate|]. intros [D|D]; discriminate.
    + split; auto.
Qed.

Lemma map_result_ok {A B} (f : A -> Result B) (l : list A) :
  (forall x, In x l -> exists y, f x = Ok y) ->
  exists ys, map_result f l = Ok ys /\ forall x y, In x l -> f x = Ok y -> In y ys.
Proof.
  induction l as [|x l IH]; simpl; intros H.
  - exists []. split; [reflexivity|]. intros _ _ [].
  - destruct (H x (or_introl eq_refl)) as [y Hy].
    destruct IH as [ys [Hys Hin]]; [intros z Hz; apply H; auto|].
    exists (y :: ys). rewrite Hy, Hys. split; [reflexivity|].
    intros z w [<-|Hz] Hw; [left; congruence|right; exact (Hin z w Hz Hw)].
Qed.

(** X22: enrolling shows up in the student's course list.  If every stored
    enrollment names a well-formed course id (the code only stores ids
    that [oid] accepted), then after a successful [enroll_course] the
    student's [student_courses] succeeds and lists the enrolled course. *)
Theorem enroll_then_student_courses (s s1 : @Store OL Grade) (body : EnrollRequest)
    (current : User) (e : Enrollment) (i : ObjectId) (t : Z) :
  Forall (fun e => parse_oid (en_course_id e) <> None) (enrollment s) ->
  enroll_course (Some s) body current i t = (Ok e, Some s1) ->
  exists cs, student_courses (Some s1) current = (Ok cs, Some s1) /\
    exists c, In c cs /\ parse_oid (er_course_id body) = Some (course_oid c).
Proof.
  intros Hall H.
  apply enroll_course_ok in H
    as (Hc & Hin & E1 & E2 & E3 & (cid & c & Pc & Fc) & Rs & He).
  assert (Hall1 : forall x, In x (enrolled_of (enrollment s1) (str_oid (_id current))) ->
            exists y, oid (en_course_id x) = Ok y).
  { intros x Hx. unfold enrolled_of in Hx. apply In_filter_iff in Hx as [Hx _].
    unfold oid. rewrite Forall_forall in Hall.
    destruct He as [He|He]; rewrite He in Hx.
    - specialize (Hall x Hx). destruct (parse_oid (en_course_id x)); eauto.
      contradiction.
    - apply in_app_or in Hx as [Hx|[<-|[]]].
      + specialize (Hall x Hx). destruct (parse_oid (en_course_id x)); eauto.
        contradiction.
      + rewrite E1, Pc. eauto. }
  destruct (map_result_ok _ _ Hall1) as [ys [Hys Hys_in]].
  assert (Hcid : In cid ys).
  { apply (Hys_in e). unfold enrolled_of. apply In_filter_iff. split; [exact Hin|].
    rewrite E2, E3, !String.eqb_refl. reflexivity.
    unfold oid. rewrite E1, Pc. reflexivity. }
  unfold student_courses, with_store. rewrite Rs, Hys.
  apply find_some in Fc as [Hc_in Hq]. apply oid_eqb_spec in Hq.
  destruct ys as [|y ys]; [contradiction|].
  eexists. split; [reflexivity|]. exists c. split.
  - apply In_filter_iff. split; [rewrite Hc; exact Hc_in|].
    apply existsb_exists. exists cid. split; [exact Hcid|].
    rewrite Hq. apply oid_eqb_refl.
  - rewrite Hq. exact Pc.
Qed.

(** X23: an uploaded material reaches the course's students.  After
    [upload_material] succeeds, the stored material carries the requested
    [course_id], and every student with an "enrolled" enrollment in that
    course finds it in [list_materials]. *)
Theorem upload_then_visible (s s1 : @Store OL Grade) (body : MaterialCreate)
    (current : User) (new_id : ObjectId) (now : Z) (m : Material)
    (st : User) (e : Enrollment) :
  upload_material (Some s) body current new_id now = (Ok m, Some s1) ->
  role st = student -> In e (enrollment s) -> en_course_id e = mc_course_id body ->
  en_student_id e = str_oid (_id st) -> status e = "enrolled" ->
  mt_course_id m = mc_course_id body /\
  exists xs, list_materials (Some s1) st = (Ok xs, Some s1) /\ In m xs.
Proof.
  intros H Hr Hin E1 E2 E3. unfold upload_material, with_store in H. cbv zeta in H.
  destruct (let* _ := require_role current ["teacher"; "admin"] in _) as [[]|er];
    [|discriminate].
  injection H as <- <-. split; [reflexivity|].
  unfold list_materials, with_store. cbn [enrollment material set_materials].
  rewrite Hr.
  assert (Hm : In (mc_course_id body)
                 (map en_course_id (enrolled_of (enrollment s) (str_oid (_id st))))).
  { rewrite <- E1. apply in_map. unfold enrolled_of. apply In_filter_iff.
    split; [exact Hin|]. rewrite E2, E3, !String.eqb_refl. reflexivity. }
  destruct (map en_course_id _) as [|c0 cs]; [contradiction|].
  eexists. split; [reflexivity|]. apply In_sort_desc, In_filter_iff. split.
  - apply in_or_app. simpl. auto.
  - cbv beta zeta iota. cbn [mt_course_id]. apply existsb_eqb_In, Hm.
Qed.

End Campus_proofs.

(** ** The stand-in libraries meet the contracts *)

Lemma toy_oid_laws : @OidLaws toy_oid.
Proof.
  split.
  - intros a b. apply String.eqb_eq.
  - intros o. reflexivity.
  - intros o. discriminate.
Qed.

Lemma dec_enc_char (c : ascii) (t : string) : dec_char (enc_char c t) = Some (c, t).
Proof. destruct c as [[] [] [] [] [] [] [] []]; reflexivity. Qed.

Lemma length_enc_char (c : ascii) (t : string) :
  String.length (enc_char c t) = (8 + String.length t)%nat.
Proof. destruct c; reflexivity. Qed.

Lemma no_space_enc_char (c : ascii) (t : string) :
  no_char " " (enc_char c t) = no_char " " t.
Proof. destruct c as [[] [] [] [] [] [] [] []]; reflexivity. Qed.

Lemma length_enc_str (s t : string) :
  (String.length t < String.length (enc_str s t))%nat.
Proof.
  induction s as [|c s IH]; simpl; [lia|].
  rewrite length_enc_char. lia.
Qed.

Lemma dec_enc_str (s t : string) (f : nat) :
  (String.length (enc_str s t) <= f)%nat -> dec_str f (enc_str s t) = Some (s, t).
Proof.
  revert f. induction s as [|c s IH]; intros f Hf; destruct f as [|f];
    simpl in *; try lia; [reflexivity|].
  rewrite dec_enc_char, IH; [reflexivity|].
  rewrite length_enc_char in Hf. lia.
Qed.

Lemma no_space_enc_str (s t : string) : no_char " " (enc_str s t) = no_char " " t.
Proof.
  induction s as [|c s IH]; [reflexivity|].
  simpl. rewrite no_space_enc_char. exact IH.
Qed.

Lemma length_enc_pos (p : positive) (t : string) :
  (String.length t < String.length (enc_pos p t))%nat.
Proof. induction p; simpl; lia. Qed.

Lemma dec_enc_pos (p : positive) (t : string) (f : nat) :
  (String.length (enc_pos p t) <= f)%nat -> dec_pos f (enc_pos p t) = Some (p, t).
Proof.
  revert f. induction p as [p IH|p IH|]; intros f Hf; destruct f as [|f];
    simpl in *; try lia; try reflexivity; rewrite IH by lia; reflexivity.
Qed.

Lemma no_space_enc_pos (p : positive) (t : string) :
  no_char " " (enc_pos p t) = no_char " " t.
Proof. induction p; simpl; auto. Qed.

Lemma length_enc_Z (z : Z) (t : string) :
  (String.length t < String.length (enc_Z z t))%nat.
Proof.
  destruct z as [|p|p]; simpl; [lia| |];
    pose proof (length_enc_pos p t); lia.
Qed.

Lemma dec_enc_Z (z : Z) (t : string) (f : nat) :
  (String.length (enc_Z z t) <= f)%nat -> dec_Z f (enc_Z z t) = Some (z, t).
Proof.
  destruct z as [|p|p]; simpl; intros Hf; [reflexivity| |];
    rewrite dec_enc_pos by lia; reflexivity.
Qed.

Lemma no_space_enc_Z (z : Z) (t : string) : no_char " " (enc_Z z t) = no_char " " t.
Proof. destruct z; simpl; rewrite ?no_space_enc_pos; reflexivity. Qed.

Lemma toy_jwt_laws : @JwtLaws toy_jwt.
Proof.
  split.
  - intros [s r e] k now. simpl. unfold toy_jwt_encode, toy_jwt_decode. simpl.
    pose proof (length_enc_str s (enc_str r (enc_Z e (String "." (enc_str k ""))))).
    pose proof (length_enc_str r (enc_Z e (String "." (enc_str k "")))).
    pose proof (length_enc_Z e (String "." (enc_str k ""))) as L3. simpl in L3.
    rewrite dec_enc_str by lia. rewrite dec_enc_str by lia.
    rewrite dec_enc_Z by lia. rewrite dec_enc_str by lia.
    rewrite String.eqb_refl. reflexivity.
  - intros [s r e] k. simpl. unfold toy_jwt_encode. simpl.
    rewrite !no_space_enc_str, no_space_enc_Z. simpl.
    rewrite no_space_enc_str. reflexivity.
  - intros t k now. cbn [jwt_signature_ok jwt_decode toy_jwt].
    unfold toy_jwt_signature_ok, toy_jwt_decode. cbv zeta.
    repeat match goal with
           | |- context [match ?x with _ => _ end] => destruct x
           end; first [reflexivity | discriminate].
Qed.

Lemma substring_app_r (a b : string) (n : nat) :
  substring (String.length a) n (a ++ b) = substring 0 n b.
Proof. induction a as [|c a IH]; simpl; auto. Qed.

Lemma substring_full (b : string) : substring 0 (String.length b) b = b.
Proof. induction b as [|c b IH]; simpl; congruence. Qed.

Lemma length_append (a b : string) :
  String.length (a ++ b) = (String.length a + String.length b)%nat.
Proof. induction a as [|c a IH]; simpl; congruence. Qed.

Lemma toy_bcrypt_laws : @BcryptLaws toy_bcrypt.
Proof.
  split.
  - intros salt secret. reflexivity.
  - intros salt secret. cbn [bcrypt_check bcrypt_digest toy_bcrypt].
    assert (A : forall x y z : string, (x ++ y ++ z) = ((x ++ y) ++ z))
      by (induction x as [|c x IH]; simpl; intros; congruence).
    rewrite A, length_append, Nat.add_sub, substring_app_r, substring_full.
    apply String.eqb_refl.
Qed.

(** * Concrete runs *)

#[local] Existing Instance toy_oid.
#[local] Existing Instance toy_jwt.
#[local] Existing Instance toy_bcrypt.
#[local] Existing Instance dev_settings.

(** The seeded admin, an unapproved teacher [t1], an account stored
    without a [password_hash], and a course owned by another teacher [t2]. *)
Definition ex_admin : User :=
  mkUser "a1" "Administrator" "admin@portal.com" (Some "$2b$12$xyadmin123")
         admin true 0 0.

Definition ex_teacher : User :=
  mkUser "t1" "Tea" "t@portal.com" (Some "$2b$12$saltpw") teacher false 0 0.

Definition ex_legacy : User :=
  mkUser "l1" "Legacy" "legacy@portal.com" None student true 0 0.

Definition ex_course : Course := mkCourse "c1" "Algebra" None None (Some "ot2") 0.

Definition ex_db : Db := mkDb [ex_admin; ex_teacher; ex_legacy] [ex_course] [].

(** A password passlib refuses: ["a"], a NUL byte, ["b"]. *)
Definition ex_nul_password : string := String "a" (String NUL (String "b" EmptyString)).

Lemma verify_issue_roundtrip_witness :
  ((exists a, In a (user ex_db) /\ _id a = _id ex_teacher) /\
   100 < 0 + JWT_EXP_MIN * 60) /\
  exists a,
    get_current_user (Some ex_db) (Some ("Bearer " ++ create_token ex_teacher 0)) 100
      = Ok a /\ _id a = _id ex_teacher.
Proof.
  assert (H1 : exists a, In a (user ex_db) /\ _id a = _id ex_teacher)
    by (exists ex_teacher; split; [simpl; auto | reflexivity]).
  assert (H2 : 100 < 0 + JWT_EXP_MIN * 60) by (simpl; lia).
  split; [split; assumption|].
  exact (verify_issue_roundtrip (OLw := toy_oid_laws) (JLw := toy_jwt_laws)
           ex_db ex_teacher 0 100 H1 H2).
Defined.

Lemma login_verified_password_witness :
  (find_user_by_email (user ex_db) "t@portal.com" = Some ex_teacher /\
   bcrypt_verify "pw" (stored_hash ex_teacher) = Ok true) /\
  login (Some ex_db) (mkLoginRequest "t@portal.com" "pw") 0 =
    (Error (HTTPException 403 "Account pending approval"), Some ex_db).
Proof.
  assert (H1 : find_user_by_email (user ex_db) "t@portal.com" = Some ex_teacher)
    by reflexivity.
  assert (H2 : bcrypt_verify "pw" (stored_hash ex_teacher) = Ok true)
    by reflexivity.
  split; [split; assumption|].
  apply (proj1 (login_verified_password ex_db (mkLoginRequest "t@portal.com" "pw")
                  ex_teacher 0 H1 H2)); [discriminate | reflexivity].
Defined.

Lemma register_role_dispatch_witness :
  (find_user_by_email (user ex_db) "s@portal.com" = None /\
   bcrypt_secret_ok "pw" = true /\ bcrypt_secret_ok ex_nul_password = false) /\
  (exists u, approved u = true /\ role u = student /\ _id u = "s1" /\
    email u = "s@portal.com" /\
    register (Some ex_db) (mkRegisterRequest "Stu" "s@portal.com" "pw" student)
      "s1" "salt" 0 =
      (Ok (token_response (create_token u 0)),
       Some {| user := user ex_db ++ [u]; course := course ex_db;
               assignment := assignment ex_db |})) /\
  exists msg,
    register (Some ex_db)
      (mkRegisterRequest "Ted" "s@portal.com" ex_nul_password teacher) "s1" "salt" 0
      = (Error (Uncaught msg), Some ex_db).
Proof.
  assert (H : find_user_by_email (user ex_db) "s@portal.com" = None)
    by reflexivity.
  assert (Hp : bcrypt_secret_ok "pw" = true) by reflexivity.
  assert (Hn : bcrypt_secret_ok ex_nul_password = false) by reflexivity.
  split; [repeat split; assumption|]. split.
  - exact (proj1 (proj1 (proj2 (register_role_dispatch ex_db
             (mkRegisterRequest "Stu" "s@portal.com" "pw" student) "s1" "salt" 0) H)
             Hp) eq_refl).
  - exact (proj2 (proj2 (register_role_dispatch ex_db
             (mkRegisterRequest "Ted" "s@portal.com" ex_nul_password teacher)
             "s1" "salt" 0) H) ltac:(discriminate) Hn).
Defined.

Lemma login_failure_indistinguishable_witness :
  (find_user_by_email (user ex_db) "nobody@portal.com" = None /\
   find_user_by_email (user ex_db) "t@portal.com" = Some ex_teacher /\
   bcrypt_verify "wrong" (stored_hash ex_teacher) = Ok false /\
   bcrypt_secret_ok ex_nul_password = false) /\
  login (Some ex_db) (mkLoginRequest "nobody@portal.com" "x") 0 =
    login (Some ex_db) (mkLoginRequest "t@portal.com" "wrong") 5 /\
  login (Some ex_db) (mkLoginRequest "nobody@portal.com" ex_nul_password) 0 =
    (Error (HTTPException 401 "Invalid credentials"), Some ex_db) /\
  exists msg,
    login (Some ex_db) (mkLoginRequest "t@portal.com" ex_nul_password) 5 =
      (Error (Uncaught msg), Some ex_db).
Proof.
  assert (H1 : find_user_by_email (user ex_db) "nobody@portal.com" = None)
    by reflexivity.
  assert (H2 : find_user_by_email (user ex_db) "t@portal.com" = Some ex_teacher)
    by reflexivity.
  assert (H3 : bcrypt_verify "wrong" (stored_hash ex_teacher) = Ok false)
    by reflexivity.
  assert (H4 : bcrypt_secret_ok ex_nul_password = false) by reflexivity.
  split; [repeat split; assumption|]. split.
  - exact (proj1 (proj1 (login_failure_indistinguishable ex_db "nobody@portal.com"
             "x" "t@portal.com" "wrong" ex_teacher 0 5 H1 H2) H3)).
  - exact (proj2 (login_failure_indistinguishable ex_db "nobody@portal.com"
             "x" "t@portal.com" ex_nul_password ex_teacher 0 5 H1 H2) H4).
Defined.

Lemma auth_ignores_approval_witness :
  (bcrypt_secret_ok "pw" = true /\
   find_user_by_email (user ex_db) "t3@portal.com" = None /\
   find_user_by_id (user ex_db) "t3" = None /\ 100 < 0 + JWT_EXP_MIN * 60) /\
  exists tr d' u c,
    register (Some ex_db) (mkRegisterRequest "Ted" "t3@portal.com" "pw" teacher)
      "t3" "salt" 0 = (Ok tr, Some d') /\
    role u = teacher /\ approved u = false /\
    get_current_user (Some d') (Some ("Bearer " ++ access_token tr)) 100 = Ok u /\
    require_role u ["teacher"; "admin"] = Ok tt /\
    fst (endpoint (Some d') (Some ("Bearer " ++ access_token tr)) 100
           (fun current =>
              create_course (Some d') (mkCourseCreate "Physics" None None)
                current "c2" 100)) = Ok c /\
    teacher_id c = Some (str_oid (_id u)).
Proof.
  assert (H1 : find_user_by_email (user ex_db) "t3@portal.com" = None)
    by reflexivity.
  assert (H2 : find_user_by_id (user ex_db) "t3" = None) by reflexivity.
  assert (H3 : 100 < 0 + JWT_EXP_MIN * 60) by (simpl; lia).
  assert (H0 : bcrypt_secret_ok "pw" = true) by reflexivity.
  split; [auto|].
  exact (proj2 (auth_ignores_approval (OLw := toy_oid_laws) (JLw := toy_jwt_laws)
           ex_db) (mkRegisterRequest "Ted" "t3@portal.com" "pw" teacher) "t3" "salt"
           0 100 (mkCourseCreate "Physics" None None) "c2" eq_refl H0 H1 H2 H3).
Defined.

Lemma register_duplicate_email_witness :
  find_user_by_email (user ex_db) "t@portal.com" = Some ex_teacher /\
  exists e,
    register (Some ex_db) (mkRegisterRequest "Other" "t@portal.com" "pw" student)
      "x1" "salt" 0 = (Error e, Some ex_db) /\
    (student <> admin -> e = HTTPException 400 "Email already registered") /\
    (student = admin -> e = HTTPException 400 "Cannot self-register as admin").
Proof.
  assert (H : find_user_by_email (user ex_db) "t@portal.com" = Some ex_teacher)
    by reflexivity.
  split; [exact H|].
  exact (register_duplicate_email ex_db
           (mkRegisterRequest "Other" "t@portal.com" "pw" student) "x1" "salt" 0
           ex_teacher H).
Defined.

Lemma access_gate_witness :
  (parse_oid "oc1" = Some "c1" /\ find_course_by_id (course ex_db) "c1" = Some ex_course /\
   teacher_id ex_course <> Some (str_oid (_id ex_teacher))) /\
  create_assignment (Some ex_db) (mkAssignmentCreate "oc1" "HW1" None None)
    ex_teacher "h1" 0 = (Error (HTTPException 403 "Not your course"), Some ex_db) /\
  exists a,
    create_assignment (Some ex_db) (mkAssignmentCreate "oc1" "HW1" None None)
      ex_admin "h1" 0 =
      (Ok a, Some {| user := user ex_db; course := course ex_db;
                     assignment := assignment ex_db ++ [a] |}).
Proof.
  assert (H1 : parse_oid "oc1" = Some "c1") by reflexivity.
  assert (H2 : find_course_by_id (course ex_db) "c1" = Some ex_course)
    by reflexivity.
  assert (H3 : teacher_id ex_course <> Some (str_oid (_id ex_teacher)))
    by discriminate.
  pose proof (proj2 access_gate ex_db
                (mkAssignmentCreate "oc1" "HW1" None None) ex_teacher ex_course
                "c1" "h1" 0 H1 H2) as [Ht _].
  pose proof (proj2 access_gate ex_db
                (mkAssignmentCreate "oc1" "HW1" None None) ex_admin ex_course
                "c1" "h1" 0 H1 H2) as [_ Ha].
  split; [auto|]. split; [exact (Ht eq_refl H3) | exact (Ha eq_refl)].
Defined.

Lemma expired_token_rejected_witness :
  (no_char " " "bearer" = true /\ lower "bearer" = "bearer" /\
   exp (mkPayload "ot1" "teacher" 3600) <= 3600 /\
   jwt_signature_ok (jwt_encode (mkPayload "ot1" "teacher" 50) "another-key")
     SECRET_KEY = false) /\
  get_current_user (Some ex_db)
    (Some ("bearer" ++ String " " (jwt_encode (mkPayload "ot1" "teacher" 3600)
                                     SECRET_KEY))) 3600
    = Error (HTTPException 401 "Token expired") /\
  get_current_user (Some ex_db)
    (Some ("bearer" ++ String " " (jwt_encode (mkPayload "ot1" "teacher" 50)
                                     "another-key"))) 3600
    = Error (HTTPException 401 "Invalid token").
Proof.
  assert (H1 : no_char " " "bearer" = true) by reflexivity.
  assert (H2 : lower "bearer" = "bearer") by reflexivity.
  assert (H3 : exp (mkPayload "ot1" "teacher" 3600) <= 3600) by (simpl; lia).
  assert (H4 : jwt_signature_ok (jwt_encode (mkPayload "ot1" "teacher" 50)
                 "another-key") SECRET_KEY = false) by (vm_compute; reflexivity).
  pose proof (expired_token_rejected (JLw := toy_jwt_laws) (Some ex_db) "bearer"
                3600 H1 H2) as [Hexp Hsig].
  split; [repeat split; assumption|].
  split; [exact (Hexp _ H3) | exact (Hsig _ H4)].
Defined.

Lemma login_malformed_hash_uncaught_witness :
  (find_user_by_email (user ex_db) "legacy@portal.com" = Some ex_legacy /\
   existsb (fun ident => String.prefix ident (stored_hash ex_legacy)) bcrypt_idents
     = false /\
   (utf8_length "anything" <= MAX_PASSWORD_SIZE)%nat) /\
  login (Some ex_db) (mkLoginRequest "legacy@portal.com" "anything") 0 =
    (Error (Uncaught "ValueError: not a valid bcrypt hash"), Some ex_db).
Proof.
  assert (H1 : find_user_by_email (user ex_db) "legacy@portal.com" = Some ex_legacy)
    by reflexivity.
  assert (H2 : existsb (fun ident => String.prefix ident (stored_hash ex_legacy))
                 bcrypt_idents = false) by reflexivity.
  assert (H3 : (utf8_length "anything" <= MAX_PASSWORD_SIZE)%nat)
    by (apply Nat.leb_le; reflexivity).
  split; [auto|].
  exact (proj2 (login_malformed_hash_uncaught ex_db
           (mkLoginRequest "legacy@portal.com" "anything") ex_legacy 0 H1 H2) H3).
Defined.

Lemma header_missing_vs_bad_scheme_witness :
  (no_char " " "Basic" = true /\ no_char " " "dXNlcjpwYXNz" = true /\
   lower "Basic" <> "bearer") /\
  get_current_user (Some ex_db) None 0 =
    Error (HTTPException 401 "Missing Authorization header") /\
  get_current_user (Some ex_db) (Some ("Basic" ++ String " " "dXNlcjpwYXNz")) 0 =
    Error (HTTPException 401 "Invalid token").
Proof.
  assert (H1 : no_char " " "Basic" = true) by reflexivity.
  assert (H2 : no_char " " "dXNlcjpwYXNz" = true) by reflexivity.
  assert (H3 : lower "Basic" <> "bearer") by discriminate.
  pose proof (header_missing_vs_bad_scheme (Some ex_db) 0) as (Hn & _ & Hb).
  split; [auto|]. split; [exact Hn | exact (Hb _ _ H1 H2 H3)].
Defined.

(** * Counterexamples *)

(** C6 as stated fails: [t@portal.com] is already registered, yet an
    admin-role registration with it is answered "Cannot self-register as
    admin", not the duplicate-email Conflict. *)
Lemma register_existing_email_admin_counterexample :
  find_user_by_email (user ex_db) "t@portal.com" <> None /\
  fst (register (Some ex_db) (mkRegisterRequest "Mal" "t@portal.com" "pw" admin)
         "x2" "salt" 0)
    = Error (HTTPException 400 "Cannot self-register as admin") /\
  fst (register (Some ex_db) (mkRegisterRequest "Mal" "t@portal.com" "pw" admin)
         "x2" "salt" 0)
    <> Error (HTTPException 400 "Email already registered").
Proof. vm_compute. split; [discriminate|]. split; [reflexivity|discriminate]. Qed.

(** C3 as stated fails: a student registration with a fresh email and a
    password holding a NUL byte makes [bcrypt.hash] raise; the request ends
    in an uncaught exception, nothing is inserted and no token is issued. *)
Lemma register_nul_password_counterexample :
  find_user_by_email (user ex_db) "s@portal.com" = None /\
  register (Some ex_db) (mkRegisterRequest "Stu" "s@portal.com" ex_nul_password student)
    "s1" "salt" 0 = (Error null_password_error, Some ex_db).
Proof. vm_compute. split; reflexivity. Qed.

(** C8 as stated fails: a token whose expiry (50) has passed at time 100
    but which is signed with another key is rejected as "Invalid token":
    the signature is checked before the expiry. *)
Lemma expired_forged_token_counterexample :
  exp (mkPayload "ot1" "teacher" 50) <= 100 /\
  get_current_user (Some ex_db)
    (Some ("Bearer " ++ jwt_encode (mkPayload "ot1" "teacher" 50) "another-key"))
    100 = Error (HTTPException 401 "Invalid token").
Proof. split; [simpl; lia | vm_compute; reflexivity]. Qed.

(** C10 as stated fails: a [Basic] header is answered "Invalid token",
    while only an absent header gets "Missing Authorization header". *)
Lemma basic_scheme_header_counterexample :
  get_current_user (Some ex_db) (Some "Basic dXNlcjpwYXNz") 0 =
    Error (HTTPException 401 "Invalid token") /\
  get_current_user (Some ex_db) (Some "Basic dXNlcjpwYXNz") 0 <>
    get_current_user (Some ex_db) None 0.
Proof. vm_compute. split; [reflexivity | discriminate]. Qed.

(** ** Runs of the rest of the portal *)

#[local] Existing Instance toy_oid_laws.
#[local] Existing Instance toy_jwt_laws.
#[local] Existing Instance toy_bcrypt_laws.

Definition ex_student : User :=
  mkUser "s2" "Sam" "sam@portal.com" (Some "$2b$12$xysecret") student true 0 0.

Definition ex_db2 : Db := mkDb [ex_admin; ex_student] [ex_course] [].

Lemma seed_admin_idempotent_witness :
  find_user_by_email (user ex_db) "admin@portal.com" = Some ex_admin /\
  seed_admin (Some ex_db) "admin@portal.com" "other" "n1" "s" 0 = Some ex_db.
Proof.
  assert (H : find_user_by_email (user ex_db) "admin@portal.com" = Some ex_admin)
    by reflexivity.
  split; [exact H|].
  exact (proj2 (seed_admin_idempotent ex_db "admin@portal.com" "other" "n1" "n2"
                  "s" "s" 0 1) ex_admin H).
Defined.


Lemma register_student_then_login_witness :
  (rq_role (mkRegisterRequest "Stu" "s@portal.com" "pw" student) = student /\
   bcrypt_secret_ok "pw" = true /\
   find_user_by_email (user ex_db) "s@portal.com" = None /\
   find_user_by_id (user ex_db) "s1" = None /\ 100 < 0 + JWT_EXP_MIN * 60) /\
  exists tr d' u,
    register (Some ex_db) (mkRegisterRequest "Stu" "s@portal.com" "pw" student)
      "s1" "salt" 0 = (Ok tr, Some d') /\
    approved u = true /\ _id u = "s1" /\
    login (Some d') (mkLoginRequest "s@portal.com" "pw") 0 =
      (Ok (token_response (create_token u 0)), Some d') /\
    get_current_user (Some d') (Some ("Bearer " ++ create_token u 0)) 100 = Ok u.
Proof.
  assert (H1 : find_user_by_email (user ex_db) "s@portal.com" = None)
    by reflexivity.
  assert (H2 : find_user_by_id (user ex_db) "s1" = None) by reflexivity.
  assert (H3 : 100 < 0 + JWT_EXP_MIN * 60) by reflexivity.
  split; [repeat split; first [assumption | reflexivity]|].
  exact (register_student_then_login ex_db
           (mkRegisterRequest "Stu" "s@portal.com" "pw" student) "s1" "salt" 0 0 100
           eq_refl eq_refl H1 H2 H3).
Defined.

Lemma teacher_approval_flow_witness :
  (rq_role (mkRegisterRequest "Ted" "t3@portal.com" "pw" teacher) = teacher /\
   bcrypt_secret_ok "pw" = true /\
   find_user_by_email (user ex_db) "t3@portal.com" = None /\
   find_user_by_id (user ex_db) "t3" = None /\ role ex_admin = admin /\
   100 < 0 + JWT_EXP_MIN * 60) /\
  exists tr d1 d2 u,
    register (Some ex_db) (mkRegisterRequest "Ted" "t3@portal.com" "pw" teacher)
      "t3" "salt" 0 = (Ok tr, Some d1) /\
    login (Some d1) (mkLoginRequest "t3@portal.com" "pw") 0 =
      (Error (HTTPException 403 "Account pending approval"), Some d1) /\
    approve_user (Some d1) (mkApproveUserRequest "ot3" true) ex_admin 0 =
      (Ok (without_password_hash u), Some d2) /\
    _id u = "t3" /\ role u = teacher /\ approved u = true /\
    login (Some d2) (mkLoginRequest "t3@portal.com" "pw") 0 =
      (Ok (token_response (create_token u 0)), Some d2) /\
    get_current_user (Some d2) (Some ("Bearer " ++ create_token u 0)) 100 = Ok u.
Proof.
  assert (H1 : find_user_by_email (user ex_db) "t3@portal.com" = None)
    by reflexivity.
  assert (H2 : find_user_by_id (user ex_db) "t3" = None) by reflexivity.
  assert (H3 : 100 < 0 + JWT_EXP_MIN * 60) by reflexivity.
  split; [repeat split; first [assumption | reflexivity]|].
  exact (teacher_approval_flow ex_db
           (mkRegisterRequest "Ted" "t3@portal.com" "pw" teacher) "t3" "salt"
           ex_admin 0 0 0 100 eq_refl eq_refl H1 H2 eq_refl H3).
Defined.

Lemma approve_user_guards_witness :
  (role ex_teacher <> admin /\
   approve_user (Some ex_db) (mkApproveUserRequest "ol1" true) ex_teacher 0 =
     (Error (HTTPException 403 "Forbidden"), Some ex_db)) /\
  (role ex_admin = admin /\ parse_oid "ozz" = Some "zz" /\
   find_user_by_id (user ex_db) "zz" = None /\
   approve_user (Some ex_db) (mkApproveUserRequest "ozz" true) ex_admin 0 =
     (Error (HTTPException 404 "User not found"), Some ex_db)).
Proof.
  assert (H0 : role ex_teacher <> admin) by discriminate.
  assert (H1 : find_user_by_id (user ex_db) "zz" = None) by reflexivity.
  split.
  - split; [exact H0|].
    exact (proj1 (approve_user_guards ex_db (mkApproveUserRequest "ol1" true)
                    ex_teacher 0) H0).
  - do 3 (split; [reflexivity || exact H1|]).
    exact (proj2 (approve_user_guards ex_db (mkApproveUserRequest "ozz" true)
                    ex_admin 0) eq_refl "zz" eq_refl H1).
Defined.

Lemma revoke_blocks_login_not_tokens_witness :
  (find_user_by_id (user ex_db2) (_id ex_student) = Some ex_student /\
   find_user_by_email (user ex_db2) (email ex_student) = Some ex_student /\
   role ex_student <> admin /\
   bcrypt_verify "secret" (stored_hash ex_student) = Ok true /\
   role ex_admin = admin /\ 100 < 0 + JWT_EXP_MIN * 60) /\
  exists d',
    approve_user (Some ex_db2) (mkApproveUserRequest "os2" false) ex_admin 50 =
      (Ok (without_password_hash (set_approved false 50 ex_student)), Some d') /\
    login (Some d') (mkLoginRequest "sam@portal.com" "secret") 100 =
      (Error (HTTPException 403 "Account pending approval"), Some d') /\
    get_current_user (Some d') (Some ("Bearer " ++ create_token ex_student 0)) 100 =
      Ok (set_approved false 50 ex_student).
Proof.
  assert (H1 : find_user_by_id (user ex_db2) (_id ex_student) = Some ex_student)
    by reflexivity.
  assert (H2 : find_user_by_email (user ex_db2) (email ex_student) = Some ex_student)
    by reflexivity.
  assert (H3 : role ex_student <> admin) by discriminate.
  assert (H4 : bcrypt_verify "secret" (stored_hash ex_student) = Ok true)
    by reflexivity.
  assert (H5 : 100 < 0 + JWT_EXP_MIN * 60) by reflexivity.
  split; [repeat split; first [assumption | reflexivity]|].
  exact (revoke_blocks_login_not_tokens ex_db2 ex_student ex_admin "secret" 0 50 100
           H1 H2 H3 H4 eq_refl H5).
Defined.

Lemma admin_course_handover_witness :
  (role ex_admin = admin /\ role ex_teacher = teacher /\
   _id ex_teacher <> _id ex_admin /\
   find_user_by_id (user ex_db) (_id ex_teacher) = Some ex_teacher /\
   find_course_by_id (course ex_db) "c2" = None /\
   ac_course_id (mkAssignmentCreate "oc2" "HW1" None None) = str_oid "c2") /\
  exists c d1 d2,
    create_course (Some ex_db) (mkCourseCreate "Geometry" None None) ex_admin "c2" 0
      = (Ok c, Some d1) /\
    teacher_id c = Some "oa1" /\
    create_assignment (Some d1) (mkAssignmentCreate "oc2" "HW1" None None)
      ex_teacher "h1" 0 = (Error (HTTPException 403 "Not your course"), Some d1) /\
    assign_teacher (Some d1) (mkAssignTeacherRequest "oc2" "ot1") ex_admin =
      (Ok (set_teacher_id "ot1" c), Some d2) /\
    exists a,
      create_assignment (Some d2) (mkAssignmentCreate "oc2" "HW1" None None)
        ex_teacher "h1" 0 =
      (Ok a, Some {| user := user d2; course := course d2;
                     assignment := assignment d2 ++ [a] |}).
Proof.
  assert (H0 : _id ex_teacher <> _id ex_admin) by discriminate.
  assert (H1 : find_user_by_id (user ex_db) (_id ex_teacher) = Some ex_teacher)
    by reflexivity.
  assert (H2 : find_course_by_id (course ex_db) "c2" = None) by reflexivity.
  split; [repeat split; first [assumption | reflexivity]|].
  exact (admin_course_handover ex_db ex_admin ex_teacher
           (mkCourseCreate "Geometry" None None)
           (mkAssignmentCreate "oc2" "HW1" None None) "c2" "h1" 0
           eq_refl eq_refl H0 H1 H2 eq_refl).
Defined.

Lemma assign_teacher_guards_witness :
  (role ex_teacher <> admin /\
   assign_teacher (Some ex_db) (mkAssignTeacherRequest "oc1" "ot1") ex_teacher =
     (Error (HTTPException 403 "Forbidden"), Some ex_db)) /\
  (role ex_admin = admin /\ parse_oid "ol1" = Some "l1" /\
   (forall t, find_user_by_id (user ex_db) "l1" = Some t -> role t <> teacher) /\
   assign_teacher (Some ex_db) (mkAssignTeacherRequest "oc1" "ol1") ex_admin =
     (Error (HTTPException 400 "Invalid teacher"), Some ex_db)).
Proof.
  assert (H0 : role ex_teacher <> admin) by discriminate.
  assert (H1 : forall t, find_user_by_id (user ex_db) "l1" = Some t ->
                         role t <> teacher)
    by (intros t Ht; vm_compute in Ht; injection Ht as <-; discriminate).
  split.
  - split; [exact H0|].
    exact (proj1 (assign_teacher_guards ex_db (mkAssignTeacherRequest "oc1" "ot1")
                    ex_teacher) H0).
  - split; [reflexivity|]. split; [reflexivity|]. split; [exact H1|].
    exact (proj2 (assign_teacher_guards ex_db (mkAssignTeacherRequest "oc1" "ol1")
                    ex_admin) eq_refl "l1" eq_refl H1).
Defined.

Definition ex_course2 : Course := mkCourse "c2" "Physics" None None (Some "ot1") 0.

Definition ex_assignment0 : Assignment := mkAssignment "h0" "oc1" "Ex 1" None None 0.

Definition ex_assignment1 : Assignment := mkAssignment "h1" "oc2" "Lab 1" None None 0.

Definition ex_core : Db :=
  mkDb [ex_admin; ex_teacher; ex_legacy; ex_student] [ex_course; ex_course2]
       [ex_assignment0; ex_assignment1].

Definition ex_enrollment : Enrollment := mkEnrollment "e1" "oc2" "os2" "enrolled" 0.

Definition ex_submission : @Submission toy_oid Z :=
  mkSubmission "x1" "oh1" "os2" (Some "v1") None (Some (90%Z, Some "good")) 0 0.

Definition ex_ann_all : Announcement :=
  mkAnnouncement "n1" "Welcome" "Hello" "oa1" None aud_all 0.

Definition ex_ann_c1 : Announcement :=
  mkAnnouncement "n2" "Algebra news" "Quiz on Monday" "oa1" (Some "oc1") aud_course 1.

Definition ex_material : Material := mkMaterial "m1" "oc2" "Slides" None None 0.

Definition ex_store : @Store toy_oid Z :=
  mkStore ex_core [ex_enrollment] [ex_submission] [ex_ann_all; ex_ann_c1] [ex_material].

Lemma enroll_course_idempotent_witness :
  Forall (fun e => status e = "enrolled") (enrollment ex_store) /\
  exists e s1,
    enroll_course (Some ex_store) (mkEnrollRequest "oc1") ex_student "e9" 5 =
      (Ok e, Some s1) /\
    enroll_course (Some s1) (mkEnrollRequest "oc1") ex_student "e10" 6 =
      (Ok e, Some s1).
Proof.
  assert (H : Forall (fun e => status e = "enrolled") (enrollment ex_store))
    by (repeat constructor).
  split; [exact H|].
  eexists _, _. split; [reflexivity|].
  apply (enroll_course_idempotent ex_store _ _ _ _ "e9" "e10" 5 6 H). reflexivity.
Defined.

Lemma submit_requires_enrollment_witness :
  (role ex_student = student /\
   parse_oid "oh0" = Some (assignment_oid ex_assignment0) /\
   find_assignment_by_id (assignment (core ex_store)) (assignment_oid ex_assignment0)
     = Some ex_assignment0 /\
   (forall e, In e (enrollment ex_store) -> en_course_id e = course_id ex_assignment0 ->
      en_student_id e = str_oid (_id ex_student) -> status e <> "enrolled")) /\
  submit_assignment (Some ex_store) (mkSubmissionCreate "oh0" (Some "answer") None)
    ex_student "x9" 5 =
    (Error (HTTPException 403 "Not enrolled in course"), Some ex_store).
Proof.
  assert (H4 : forall e, In e (enrollment ex_store) ->
                 en_course_id e = course_id ex_assignment0 ->
                 en_student_id e = str_oid (_id ex_student) -> status e <> "enrolled")
    by (intros e [<-|[]] E; discriminate E).
  split; [repeat split; first [reflexivity | exact H4]|].
  exact (submit_requires_enrollment ex_store (mkSubmissionCreate "oh0" (Some "answer") None)
           ex_student "x9" 5 ex_assignment0
           eq_refl eq_refl eq_refl H4).
Defined.

Lemma submit_keeps_one_submission_witness :
  (submissions_ok (submission ex_store) /\
   ~ In "x9" (map submission_oid (submission ex_store))) /\
  exists r s', submit_assignment (Some ex_store)
      (mkSubmissionCreate "oh1" (Some "v2") None) ex_student "x9" 5 = (r, Some s') /\
    submissions_ok (submission s').
Proof.
  assert (H1 : submissions_ok (submission ex_store)).
  { split.
    - repeat constructor. intros [].
    - intros aid sid. unfold pair_count.
      cbn [filter submission ex_store ex_submission sb_assignment_id sb_student_id].
      destruct (String.eqb "oh1" aid && String.eqb "os2" sid); simpl; lia. }
  assert (H2 : ~ In "x9" (map submission_oid (submission ex_store)))
    by (simpl; intros [E|[]]; discriminate E).
  split; [split; assumption|].
  eexists _, _. split; [reflexivity|].
  eapply (submit_keeps_one_submission ex_store _ (mkSubmissionCreate "oh1" (Some "v2") None)
            ex_student "x9" 5 _ H1 H2).
  reflexivity.
Defined.

Lemma resubmit_keeps_grade_witness :
  (NoDup (map submission_oid (submission ex_store)) /\
   find (fun x => String.eqb (sb_assignment_id x) "oh1"
                  && String.eqb (sb_student_id x) (str_oid (_id ex_student)))
        (submission ex_store) = Some ex_submission) /\
  exists r s', submit_assignment (Some ex_store)
      (mkSubmissionCreate "oh1" (Some "v2") None) ex_student "x9" 5 = (r, Some s') /\
  (r = Error (HTTPException 403 "Not enrolled in course") \/
   r = Error (HTTPException 404 "Assignment not found") \/
   r = Error (HTTPException 400 "Invalid id format") \/
   r = Error (HTTPException 403 "Forbidden") \/
   exists x, r = Ok (Some x) /\
     submission_oid x = submission_oid ex_submission /\
     graded x = graded ex_submission /\ content x = Some "v2" /\
     sb_file_url x = None /\ sb_created_at x = 5 /\
     length (submission s') = length (submission ex_store)).
Proof.
  assert (H1 : NoDup (map submission_oid (submission ex_store)))
    by (repeat constructor; intros []).
  assert (H2 : find (fun x => String.eqb (sb_assignment_id x) "oh1"
                      && String.eqb (sb_student_id x) (str_oid (_id ex_student)))
                 (submission ex_store) = Some ex_submission) by reflexivity.
  split; [split; assumption|].
  eexists _, _. split; [reflexivity|].
  exact (resubmit_keeps_grade ex_store _ (mkSubmissionCreate "oh1" (Some "v2") None)
           ex_student "x9" 5 ex_submission _ H1 H2 eq_refl).
Defined.

Lemma grade_submission_access_witness :
  (parse_oid "ox1" = Some (submission_oid ex_submission) /\
   find_submission_by_id (submission ex_store) (submission_oid ex_submission)
     = Some ex_submission /\
   parse_oid (sb_assignment_id ex_submission) = Some (assignment_oid ex_assignment1) /\
   find_assignment_by_id (assignment (core ex_store)) (assignment_oid ex_assignment1)
     = Some ex_assignment1 /\
   parse_oid (course_id ex_assignment1) = Some (course_oid ex_course2) /\
   find_course_by_id (course (core ex_store)) (course_oid ex_course2) = Some ex_course2) /\
  (role ex_teacher = student ->
     grade_submission (Some ex_store) (mkGradeRequest "ox1" 95%Z None) ex_teacher 7 =
       (Error (HTTPException 403 "Forbidden"), Some ex_store)) /\
  (role ex_teacher = teacher -> teacher_id ex_course2 <> Some (str_oid (_id ex_teacher)) ->
     grade_submission (Some ex_store) (mkGradeRequest "ox1" 95%Z None) ex_teacher 7 =
       (Error (HTTPException 403 "Not your course"), Some ex_store)) /\
  (role ex_teacher = admin \/
     role ex_teacher = teacher /\ teacher_id ex_course2 = Some (str_oid (_id ex_teacher)) ->
   exists s', grade_submission (Some ex_store) (mkGradeRequest "ox1" 95%Z None)
       ex_teacher 7 =
       (Ok (Some (set_grade (mkGradeRequest "ox1" 95%Z None) 7 ex_submission)), Some s') /\
     graded (set_grade (mkGradeRequest "ox1" 95%Z None) 7 ex_submission) =
       Some (95%Z, None) /\
     length (submission s') = length (submission ex_store)).
Proof.
  split; [repeat split; reflexivity|].
  exact (grade_submission_access ex_store (mkGradeRequest "ox1" 95%Z None) ex_teacher 7
           ex_submission ex_assignment1 ex_course2
           eq_refl eq_refl eq_refl eq_refl eq_refl eq_refl).
Defined.

Lemma create_announcement_checks_witness :
  role ex_teacher <> student /\
  (anc_audience (mkAnnouncementCreate "T" "C" None aud_course) = aud_course ->
   anc_course_id (mkAnnouncementCreate "T" "C" None aud_course) = None \/
   anc_course_id (mkAnnouncementCreate "T" "C" None aud_course) = Some "" ->
   create_announcement (Some ex_store) (mkAnnouncementCreate "T" "C" None aud_course)
     ex_teacher "n9" 3 =
     (Error (HTTPException 400 "course_id required for course audience"), Some ex_store)) /\
  (anc_audience (mkAnnouncementCreate "T" "C" None aud_course) = aud_all ->
   exists an, create_announcement (Some ex_store)
       (mkAnnouncementCreate "T" "C" None aud_course) ex_teacher "n9" 3 =
       (Ok an, Some (set_announcements ex_store (announcement ex_store ++ [an]))) /\
     an_course_id an = None /\ author_id an = str_oid (_id ex_teacher) /\
     audience an = aud_all).
Proof.
  assert (H : role ex_teacher <> student) by discriminate.
  split; [exact H|].
  exact (create_announcement_checks ex_store (mkAnnouncementCreate "T" "C" None aud_course)
           ex_teacher "n9" 3 H).
Defined.

Lemma profile_password_hash_witness :
  find_user_by_id (user ex_db) (_id ex_teacher) = Some ex_teacher /\
  (forall u, me ex_teacher = Ok u -> password_hash u = None) /\
  exists u d', update_me (Some ex_db) (mkProfileUpdate None None None) ex_teacher 4 =
      (Ok u, Some d') /\
    password_hash u = Some "$2b$12$saltpw".
Proof.
  assert (H : find_user_by_id (user ex_db) (_id ex_teacher) = Some ex_teacher)
    by reflexivity.
  split; [exact H|].
  exact (profile_password_hash ex_db (mkProfileUpdate None None None) ex_teacher
           ex_teacher 4 H).
Defined.

Lemma list_users_hides_hashes_witness :
  (role ex_teacher <> admin /\
   list_users (Some ex_db) ex_teacher =
     (Error (HTTPException 403 "Forbidden"), Some ex_db)) /\
  (role ex_admin = admin /\
   exists xs, list_users (Some ex_db) ex_admin = (Ok xs, Some ex_db) /\
     (forall u, In u xs -> password_hash u = None) /\
     (forall u, In u (user ex_db) -> In (without_password_hash u) xs) /\
     length xs = length (user ex_db)).
Proof.
  assert (H : role ex_teacher <> admin) by discriminate.
  split.
  - split; [exact H|]. exact (proj1 (list_users_hides_hashes ex_db ex_teacher) H).
  - split; [reflexivity|]. exact (proj2 (list_users_hides_hashes ex_db ex_admin) eq_refl).
Defined.

Lemma enroll_then_submit_witness :
  (role ex_student = student /\
   find_assignment_by_id (assignment (core ex_store)) (assignment_oid ex_assignment0)
     = Some ex_assignment0) /\
  exists e s1,
    enroll_course (Some ex_store) (mkEnrollRequest "oc1") ex_student "e9" 5 =
      (Ok e, Some s1) /\
    (exists xs, student_assignments (Some s1) ex_student = (Ok xs, Some s1) /\
       In ex_assignment0 xs) /\
    exists r s2, submit_assignment (Some s1)
        (mkSubmissionCreate (str_oid (assignment_oid ex_assignment0)) (Some "a") None)
        ex_student "x9" 6 = (Ok r, Some s2).
Proof.
  split; [split; reflexivity|].
  eexists _, _. split; [reflexivity|].
  eapply (enroll_then_submit ex_store _ ex_student ex_assignment0 _ "e9" "x9" 5 6
           (Some "a") None eq_refl eq_refl).
  reflexivity.
Defined.

Lemma my_courses_scope_witness :
  (role ex_student = student /\
   my_courses (Some ex_db) ex_student =
     (Error (HTTPException 403 "Forbidden"), Some ex_db)) /\
  (role ex_teacher <> student /\
   exists xs, my_courses (Some ex_db) ex_teacher = (Ok xs, Some ex_db) /\
     forall c, In c xs <-> In c (course ex_db) /\
       (role ex_teacher = admin \/ teacher_id c = Some (str_oid (_id ex_teacher)))).
Proof.
  assert (H : role ex_teacher <> student) by discriminate.
  split.
  - split; [reflexivity|]. exact (proj1 (my_courses_scope ex_db ex_student) eq_refl).
  - split; [exact H|]. exact (proj2 (my_courses_scope ex_db ex_teacher) H).
Defined.

Lemma enroll_then_student_courses_witness :
  Forall (fun e => parse_oid (en_course_id e) <> None) (enrollment ex_store) /\
  exists e s1,
    enroll_course (Some ex_store) (mkEnrollRequest "oc1") ex_student "e9" 5 =
      (Ok e, Some s1) /\
    exists cs, student_courses (Some s1) ex_student = (Ok cs, Some s1) /\
      exists c, In c cs /\ parse_oid "oc1" = Some (course_oid c).
Proof.
  assert (H : Forall (fun e => parse_oid (en_course_id e) <> None) (enrollment ex_store))
    by (repeat constructor; discriminate).
  split; [exact H|].
  eexists _, _. split; [reflexivity|].
  eapply (enroll_then_student_courses ex_store _ (mkEnrollRequest "oc1") ex_student _
           "e9" 5 H).
  reflexivity.
Defined.

Lemma upload_then_visible_witness :
  exists m s1,
    (upload_material (Some ex_store) (mkMaterialCreate "oc2" "Notes" None None)
       ex_teacher "m9" 8 = (Ok m, Some s1) /\
     role ex_student = student /\ In ex_enrollment (enrollment ex_store) /\
     en_course_id ex_enrollment = "oc2" /\
     en_student_id ex_enrollment = str_oid (_id ex_student) /\
     status ex_enrollment = "enrolled") /\
    mt_course_id m = "oc2" /\
    exists xs, list_materials (Some s1) ex_student = (Ok xs, Some s1) /\ In m xs.
Proof.
  eexists _, _.
  assert (Hin : In ex_enrollment (enrollment ex_store)) by (simpl; auto).
  split; [split; [reflexivity|repeat split; first [reflexivity | exact Hin]]|].
  eapply (upload_then_visible ex_store _ (mkMaterialCreate "oc2" "Notes" None None)
            ex_teacher "m9" 8 _ ex_student ex_enrollment _ eq_refl Hin eq_refl
            eq_refl eq_refl).
  Unshelve. reflexivity.
Defined.
